(** * The daily documentation scraper ([src/scripts/scrape.ts])

    A shallow embedding of the script and the properties of its
    specification.

    Conventions of the embedding.
    - A JavaScript string is a [string]; each [ascii] stands for one UTF-16
      code unit (the code units 0..255).  Every string operation the script
      uses ([substring], [split], [padStart], [+], [trim], the regular
      expressions) works code unit by code unit.
    - A JSON field that may be missing, [null] or a string is a [JSValue].
    - A JavaScript number that is an integer or [NaN] is an [option Z]
      ([None] is [NaN]); array lengths are [nat].
    - A [Date] object is its time value in milliseconds since the epoch, or
      [None] for an Invalid Date.
    - Code that can throw returns a [Completion].
    - Console output is not modelled. *)

From Stdlib Require Import ZArith Ascii DecimalString Lia.
From stdpp Require Import gmap strings list.

(** ** Completions: a value or a thrown error *)

Inductive Completion (A : Type) : Type :=
| Normal (a : A)
| Throw (error : string).
Arguments Normal {A} a.
Arguments Throw {A} error.

(** The monad structure, with stdpp's [x ← c; k] notation. *)
#[global] Instance Completion_ret : MRet Completion := λ A a, Normal a.
#[global] Instance Completion_bind : MBind Completion := λ A B k c,
  match c with
  | Normal a => k a
  | Throw e => Throw e
  end.

(** ** JavaScript values and strings *)

Module JS.

Inductive JSValue : Type :=
| JSUndefined
| JSNull
| JSStr (s : string).

(** [ToBoolean]: [undefined], [null] and the empty string are falsy. *)
Definition truthy (v : JSValue) : bool :=
  match v with
  | JSStr (String _ _) => true
  | _ => false
  end.

(** [ToString] on the values of [JSValue]. *)
Definition ToString (v : JSValue) : string :=
  match v with
  | JSUndefined => "undefined"
  | JSNull => "null"
  | JSStr s => s
  end.

(** [v + s] where [s] is a string: string concatenation after [ToString]. *)
Definition plus (v : JSValue) (s : string) : string := ToString v +:+ s.

(** [a || b] on strings. *)
Definition or (a b : string) : string :=
  match a with
  | EmptyString => b
  | String _ _ => a
  end.

(** [a || b] where [a] may be any [JSValue] and [b] is a string. *)
Definition or_value (a : JSValue) (b : string) : string :=
  match a with
  | JSStr s => or s b
  | _ => b
  end.

(** The line feed, written [\n] in the script. *)
Definition LF : ascii := ascii_of_nat 10.
Definition nl : string := String LF EmptyString.

Fixpoint take (n : nat) (s : string) : string :=
  match n, s with
  | S k, String c r => String c (take k r)
  | _, _ => EmptyString
  end.

Fixpoint drop (n : nat) (s : string) : string :=
  match n, s with
  | S k, String _ r => drop k r
  | _, _ => s
  end.

(** [s.substring(start, end)] for non-negative integer arguments: both are
    clamped to the length and swapped when [start > end]. *)
Definition substring (s : string) (start fin : nat) : string :=
  let lo := Nat.min start fin in
  let hi := Nat.max start fin in
  take (hi - lo) (drop lo s).

(** [v?.substring(start, end)] *)
Definition opt_substring (v : JSValue) (start fin : nat) : JSValue :=
  match v with
  | JSStr s => JSStr (substring s start fin)
  | _ => JSUndefined
  end.

(** [s.split(sep)] for a separator of one code unit.  The result is never
    the empty array. *)
Fixpoint split (sep : ascii) (s : string) : list string :=
  match s with
  | EmptyString => [EmptyString]
  | String c r =>
      if Ascii.eqb c sep then EmptyString :: split sep r
      else match split sep r with
           | h :: t => String c h :: t
           | [] => [String c EmptyString]
           end
  end.

(** [arr[0]] on the result of a [split], which has a first element. *)
Definition first (l : list string) : string :=
  match l with
  | [] => EmptyString
  | x :: _ => x
  end.

(** [arr.pop()] as a value: the last element, [undefined] on the empty
    array. *)
Fixpoint pop (l : list string) : JSValue :=
  match l with
  | [] => JSUndefined
  | [x] => JSStr x
  | _ :: r => pop r
  end.

(** [n] code units taken cyclically from [fill], starting with [rest]. *)
Fixpoint cycle (n : nat) (fill rest : string) : string :=
  match n with
  | O => EmptyString
  | S k =>
      match rest with
      | String c r => String c (cycle k fill r)
      | EmptyString =>
          match fill with
          | String c r => String c (cycle k fill r)
          | EmptyString => EmptyString
          end
      end
  end.

(** [s.padStart(n, fill)] *)
Definition padStart (s : string) (n : nat) (fill : string) : string :=
  if (n <=? String.length s)%nat then s
  else cycle (n - String.length s) fill fill +:+ s.

(** [Number.prototype.toString] on an integer or [NaN]. *)
Definition Number_toString (n : option Z) : string :=
  match n with
  | None => "NaN"
  | Some z => NilZero.string_of_int (Z.to_int z)
  end.

(** [arr.length.toString()] and [`${arr.length}`] *)
Definition length_toString (n : nat) : string := Number_toString (Some (Z.of_nat n)).

(** [arr.slice(0, n)] *)
Definition slice0 {A : Type} (l : list A) (n : nat) : list A := firstn n l.

(** [arr.join(sep)] on an array of strings. *)
Fixpoint join (sep : string) (l : list string) : string :=
  match l with
  | [] => EmptyString
  | [x] => x
  | x :: r => x +:+ sep +:+ join sep r
  end.

(** White space and line terminators among the code units 0..255. *)
Definition is_space (c : ascii) : bool :=
  let n := nat_of_ascii c in
  ((9 <=? n) && (n <=? 13) || (n =? 32) || (n =? 160))%nat.

(** The line terminators among the code units 0..255, which [.] in a regular
    expression does not match. *)
Definition is_line_terminator (c : ascii) : bool :=
  let n := nat_of_ascii c in
  ((n =? 10) || (n =? 13))%nat.

Fixpoint trimStart (s : string) : string :=
  match s with
  | String c r => if is_space c then trimStart r else s
  | EmptyString => EmptyString
  end.

Fixpoint trimEnd (s : string) : string :=
  match s with
  | EmptyString => EmptyString
  | String c r =>
      match trimEnd r with
      | EmptyString => if is_space c then EmptyString else String c EmptyString
      | t => String c t
      end
  end.

(** [s.trim()] *)
Definition trim (s : string) : string := trimEnd (trimStart s).

(** *** Scanning with the regular expressions of the script *)

Definition dquote : ascii := ascii_of_nat 34.

(** [s] without the prefix [p], when it starts with it. *)
Fixpoint strip_prefix (p s : string) : option string :=
  match p, s with
  | EmptyString, _ => Some s
  | String a p', String b s' => if Ascii.eqb a b then strip_prefix p' s' else None
  | String _ _, EmptyString => None
  end.

(** The longest prefix of [s] without the code unit [stop], and what is left
    ([[^stop]*], which is greedy and cannot give back). *)
Fixpoint span_not (stop : ascii) (s : string) : string * string :=
  match s with
  | EmptyString => (EmptyString, EmptyString)
  | String c r =>
      if Ascii.eqb c stop then (EmptyString, s)
      else let '(p, q) := span_not stop r in (String c p, q)
  end.

(** The loop [while ((match = re.exec(s)) !== null)] of a regular expression
    with the [g] flag.  [match_at] tries the expression at the start of a
    string and gives the capture group and the length of the match, which is
    positive; the search goes on after the match. *)
Fixpoint exec_all (match_at : string → option (string * nat)) (s : string)
    (skip : nat) : list string :=
  match s with
  | EmptyString => []
  | String _ r =>
      match skip with
      | S k => exec_all match_at r k
      | O =>
          match match_at s with
          | Some (capture, len) => capture :: exec_all match_at r (len - 1)
          | None => exec_all match_at r 0
          end
      end
  end.

(** The link expression at the start of [s]: the text [href=], a double
    quote, [/docs/], one or more code units that are not a double quote (the
    capture group) and a double quote. *)
Definition match_doc_link (s : string) : option (string * nat) :=
  let prefix := "href=" +:+ String dquote "/docs/" in
  match strip_prefix prefix s with
  | None => None
  | Some rest =>
      match span_not dquote rest with
      | (String c p, String _ _) =>
          Some (String c p, String.length prefix + String.length (String c p) + 1)%nat
      | _ => None
      end
  end.

(** [h] or [H], and [2] or [3]: the expression has the [i] flag. *)
Definition is_h (c : ascii) : bool := Ascii.eqb c "h" || Ascii.eqb c "H".
Definition is_2_or_3 (c : ascii) : bool := Ascii.eqb c "2" || Ascii.eqb c "3".

(** [</h[23]>] at the start of [s]. *)
Definition match_close_heading (s : string) : bool :=
  match s with
  | String a (String b (String c (String d (String e _)))) =>
      Ascii.eqb a "<" && Ascii.eqb b "/" && is_h c && is_2_or_3 d && Ascii.eqb e ">"
  | _ => false
  end.

(** [(.*?)</h[23]>] at the start of [s]: the capture and the length. *)
Fixpoint match_heading_text (s : string) : option (string * nat) :=
  if match_close_heading s then Some (EmptyString, 5%nat)
  else match s with
       | EmptyString => None
       | String c r =>
           if is_line_terminator c then None
           else match match_heading_text r with
                | Some (capture, len) => Some (String c capture, S len)
                | None => None
                end
       end.

(** The heading expression [<h[23][^>]*>(.*?)</h[23]>] at the start of
    [s]. *)
Definition match_heading (s : string) : option (string * nat) :=
  match s with
  | String a (String b (String c rest)) =>
      if Ascii.eqb a "<" && is_h b && is_2_or_3 c then
        match span_not ">" rest with
        | (attrs, String _ inner) =>
            match match_heading_text inner with
            | Some (capture, len) => Some (capture, 3 + String.length attrs + 1 + len)%nat
            | None => None
            end
        | _ => None
        end
      else None
  | _ => None
  end.

(** The index of the first [c] in [s]. *)
Fixpoint index_of (c : ascii) (s : string) : option nat :=
  match s with
  | EmptyString => None
  | String a r => if Ascii.eqb a c then Some O else S <$> index_of c r
  end.

(** [s.replace(re, empty)] where [re] is [<[^>]*>] with the [g] flag. *)
Fixpoint strip_tags (s : string) (skip : nat) : string :=
  match s with
  | EmptyString => EmptyString
  | String c r =>
      match skip with
      | S k => strip_tags r k
      | O =>
          if Ascii.eqb c "<" then
            match index_of ">" r with
            | Some n => strip_tags r (S n)
            | None => String c (strip_tags r 0)
            end
          else String c (strip_tags r 0)
      end
  end.

End JS.

(** ** Dates

    The engine's [Date]: time values, the civil calendar of a day number,
    local time and [toISOString]. *)

Module Date.
Local Open Scope Z_scope.

(** A [Date] object: its time value, or [None] for an Invalid Date. *)
Definition t : Type := option Z.

Definition msPerDay : Z := 86400000.
Definition maxTimeValue : Z := 8640000000000000.

(** [TimeClip]: a number outside the range of time values becomes [NaN]. *)
Definition TimeClip (v : Z) : t :=
  if Z.abs v <=? maxTimeValue then Some v else None.

(** [new Date(v)] for a number [v]. *)
Definition of_number (v : Z) : t := TimeClip v.

(** [new Date()]: the clock's reading, which is a time value. *)
Definition of_clock (now : Z) : t := Some now.

(** [a > b] on two [Date] objects: both are converted to numbers, and a
    comparison with [NaN] is false. *)
Definition gt (a b : t) : bool :=
  match a, b with
  | Some x, Some y => y <? x
  | _, _ => false
  end.

(** Year, month (1..12) and day of the month (1..31) of a day number counted
    from 1970-01-01, in the proleptic Gregorian calendar. *)
Definition civil_from_days (day : Z) : Z * Z * Z :=
  let z := day + 719468 in
  let era := z / 146097 in
  let doe := z mod 146097 in
  let yoe := (doe - doe / 1460 + doe / 36524 - doe / 146096) / 365 in
  let doy := doe - (365 * yoe + yoe / 4 - yoe / 100) in
  let mp := (5 * doy + 2) / 153 in
  let d := doy - (153 * mp + 2) / 5 + 1 in
  let m := if mp <? 10 then mp + 3 else mp - 9 in
  let y := yoe + era * 400 in
  (if m <=? 2 then y + 1 else y, m, d).

Definition Day (tv : Z) : Z := tv / msPerDay.
Definition TimeWithinDay (tv : Z) : Z := tv mod msPerDay.

Definition YearFromTime (tv : Z) : Z := fst (fst (civil_from_days (Day tv))).
(** Months count from 0 in [MonthFromTime]. *)
Definition MonthFromTime (tv : Z) : Z := snd (fst (civil_from_days (Day tv))) - 1.
Definition DateFromTime (tv : Z) : Z := snd (civil_from_days (Day tv)).

(** A non-negative integer in decimal, padded with zeros to [n] digits. *)
Definition digits (n : nat) (z : Z) : string :=
  JS.padStart (JS.Number_toString (Some z)) n "0".

(** [date.toISOString()]: throws a [RangeError] on an Invalid Date.  Years
    outside 0..9999 are written with a sign and six digits. *)
Definition toISOString (d : t) : Completion string :=
  match d with
  | None => Throw "RangeError: Invalid Date"
  | Some tv =>
      let y := YearFromTime tv in
      let r := TimeWithinDay tv in
      let year :=
        if (0 <=? y) && (y <=? 9999) then digits 4 y
        else (if y <? 0 then "-" else "+") +:+ digits 6 (Z.abs y) in
      Normal (year +:+ "-" +:+ digits 2 (MonthFromTime tv + 1) +:+ "-"
              +:+ digits 2 (DateFromTime tv) +:+ "T"
              +:+ digits 2 (r / 3600000) +:+ ":"
              +:+ digits 2 (r mod 3600000 / 60000) +:+ ":"
              +:+ digits 2 (r mod 60000 / 1000) +:+ "."
              +:+ digits 3 (r mod 1000) +:+ "Z")
  end.

Section Host.
(** The host's time zone: the offset of local time from UTC, in
    milliseconds, at a time value. *)
Variable LocalTZA : Z → Z.

Definition LocalTime (tv : Z) : Z := tv + LocalTZA tv.

(** [date.getFullYear()], [date.getMonth()] and [date.getDate()] read the
    local time and give [NaN] on an Invalid Date. *)
Definition getFullYear (d : t) : option Z := YearFromTime ∘ LocalTime <$> d.
Definition getMonth (d : t) : option Z := MonthFromTime ∘ LocalTime <$> d.
Definition getDate (d : t) : option Z := DateFromTime ∘ LocalTime <$> d.

End Host.

End Date.

(** ** The records of the script *)

Module GitHubCommit.
Record Author : Type := { name : string; date : string }.
Record Commit : Type := { message : string; author : Author }.
Record t : Type := { sha : string; commit : Commit; html_url : string }.
End GitHubCommit.

(** A release as the upstream API returns it: [name] and [body] may be
    [null], and the filter of the fetcher allows for a [published_at] that
    is not there. *)
Module RawRelease.
Record t : Type := {
  tag_name : string;
  name : JS.JSValue;
  html_url : string;
  published_at : JS.JSValue;
  body : JS.JSValue }.
End RawRelease.

(** A release as the fetcher returns it.  [published_at] is copied from the
    raw entry as it is. *)
Module GitHubRelease.
Record t : Type := {
  tag_name : string;
  name : string;
  html_url : string;
  published_at : JS.JSValue;
  body : string }.
End GitHubRelease.

(** A pull request, raw and as returned: [merged_at] is [null] for a request
    closed without a merge, and is copied as it is. *)
Module GitHubPR.
Record t : Type := {
  number : Z;
  title : string;
  html_url : string;
  merged_at : JS.JSValue }.
End GitHubPR.

Module DocPage.
Record t : Type := { title : string; url : string; lastUpdated : string }.
End DocPage.

Module DailyReport.
Record GitHub : Type := {
  commits : list GitHubCommit.t;
  releases : list GitHubRelease.t;
  pullRequests : list GitHubPR.t }.
Record t : Type := {
  date : string;
  summary : string;
  github : GitHub;
  docs : list DocPage.t;
  releaseNotes : list string }.
End DailyReport.

Definition GITHUB_REPO : string := "anthropics/claude-code".
Definition DOCS_BASE_URL : string := "https://code.claude.com/docs".
Definition RELEASE_NOTES_URL : string :=
  "https://platform.claude.com/docs/en/release-notes/overview".

(** ** The outside world *)

(** What [await fetch(url)] followed by [response.json()] or
    [response.text()] comes to: the request fails, or there is a response
    with its [ok] flag and status, whose body is [None] when reading it
    fails or it does not have the expected shape. *)
Inductive FetchOutcome (A : Type) : Type :=
| NetworkError
| Response (ok : bool) (status : Z) (payload : option A).
Arguments NetworkError {A}.
Arguments Response {A} ok status payload.

(** A fetcher fails on a network error or a non-success response. *)
Definition fetch_failed {A : Type} (o : FetchOutcome A) : Prop :=
  match o with
  | NetworkError => True
  | Response ok _ _ => ok = false
  end.

(** The file system: the directories that exist and the files with their
    content. *)
Record Disk : Type := { dirs : gset string; files : gmap string string }.

(** What a synchronous call can observe: the clock and the disk. *)
Record World : Type := { clock : Z; disk : Disk }.

(** ** The script *)

Section Scraper.

(** The host: [Date.parse] of the engine ([None] is [NaN]) and its time
    zone. *)
Variable Date_parse : string → option Z.
Variable LocalTZA : Z → Z.

(** [new Date(v)] for a string, [null] or [undefined]. *)
Definition Date_new (v : JS.JSValue) : Date.t :=
  match v with
  | JS.JSUndefined => None
  | JS.JSNull => Date.of_number 0
  | JS.JSStr s => Date_parse s
  end.

(** [new Date(Date.now() - 24 * 60 * 60 * 1000)] *)
Definition oneDayAgo (now : Z) : Date.t := Date.of_number (now - 24 * 60 * 60 * 1000).

Definition formatDate (date : Date.t) : Completion string :=
  iso ← Date.toISOString date;
  mret (JS.first (JS.split "T" iso)).

Record DateParts : Type := { year : string; month : string; day : string }.

Definition getDateParts (date : Date.t) : DateParts :=
  {| year := JS.Number_toString (Date.getFullYear LocalTZA date);
     month := JS.padStart
                (JS.Number_toString (Z.add 1 <$> Date.getMonth LocalTZA date)) 2 "0";
     day := JS.padStart (JS.Number_toString (Date.getDate LocalTZA date)) 2 "0" |}.

(** *** The fetchers

    Each takes the reading of the clock it makes and the outcome of its
    request.  What is thrown inside a [try] block is caught there. *)

Definition toCommit (commit : GitHubCommit.t) : GitHubCommit.t :=
  {| GitHubCommit.sha := JS.substring (GitHubCommit.sha commit) 0 7;
     GitHubCommit.commit :=
       {| GitHubCommit.message :=
            JS.first (JS.split JS.LF
                        (GitHubCommit.message (GitHubCommit.commit commit)));
          GitHubCommit.author :=
            {| GitHubCommit.name :=
                 GitHubCommit.name (GitHubCommit.author (GitHubCommit.commit commit));
               GitHubCommit.date :=
                 GitHubCommit.date (GitHubCommit.author (GitHubCommit.commit commit)) |} |};
     GitHubCommit.html_url := GitHubCommit.html_url commit |}.

(** [since], which goes into the address of the request, is computed before
    the [try] block. *)
Definition fetchRecentCommits (now : Z) (response : FetchOutcome (list GitHubCommit.t))
    : Completion (list GitHubCommit.t) :=
  since ← Date.toISOString (oneDayAgo now);
  mret match response with
       | NetworkError => []
       | Response false _ _ => []
       | Response true _ None => []
       | Response true _ (Some commits) => map toCommit commits
       end.

Definition keepRelease (now : Z) (r : RawRelease.t) : bool :=
  JS.truthy (RawRelease.published_at r)
  && Date.gt (Date_new (RawRelease.published_at r)) (oneDayAgo now).

Definition toRelease (release : RawRelease.t) : GitHubRelease.t :=
  {| GitHubRelease.tag_name := RawRelease.tag_name release;
     GitHubRelease.name := JS.or_value (RawRelease.name release) (RawRelease.tag_name release);
     GitHubRelease.html_url := RawRelease.html_url release;
     GitHubRelease.published_at := RawRelease.published_at release;
     GitHubRelease.body :=
       JS.or (JS.plus (JS.opt_substring (RawRelease.body release) 0 200) "...") "" |}.

Definition fetchRecentReleases (now : Z) (response : FetchOutcome (list RawRelease.t))
    : list GitHubRelease.t :=
  match response with
  | NetworkError => []
  | Response false _ _ => []
  | Response true _ None => []
  | Response true _ (Some releases) => map toRelease (filter (keepRelease now) releases)
  end.

Definition keepPR (now : Z) (pr : GitHubPR.t) : bool :=
  JS.truthy (GitHubPR.merged_at pr)
  && Date.gt (Date_new (GitHubPR.merged_at pr)) (oneDayAgo now).

Definition toPR (pr : GitHubPR.t) : GitHubPR.t :=
  {| GitHubPR.number := GitHubPR.number pr;
     GitHubPR.title := GitHubPR.title pr;
     GitHubPR.html_url := GitHubPR.html_url pr;
     GitHubPR.merged_at := GitHubPR.merged_at pr |}.

Definition fetchRecentPRs (now : Z) (response : FetchOutcome (list GitHubPR.t))
    : list GitHubPR.t :=
  match response with
  | NetworkError => []
  | Response false _ _ => []
  | Response true _ None => []
  | Response true _ (Some prs) => map toPR (filter (keepPR now) prs)
  end.

(** [links.add(x)] for each [x] of [found] in turn: a [Set] keeps the order
    of first insertion. *)
Fixpoint add_all (found : list string) (links : list string) : list string :=
  match found with
  | [] => links
  | x :: rest =>
      if bool_decide (x ∈ links) then add_all rest links
      else add_all rest (links ++ [x])
  end.

Definition docTitle (link : string) : string :=
  JS.or_value (JS.pop (JS.split "/" link)) link.

(** The loop over the links; [now k] is the clock at the [k]-th page.  An
    error would leave the function through its [catch], with the pages pushed
    so far. *)
Fixpoint pushPages (now : nat → Z) (k : nat) (links : list string)
    (results : list DocPage.t) : list DocPage.t :=
  match links with
  | [] => results
  | link :: rest =>
      match Date.toISOString (Date.of_clock (now k)) with
      | Normal lastUpdated =>
          pushPages now (S k) rest
            (results ++ [ {| DocPage.title := docTitle link;
                             DocPage.url := DOCS_BASE_URL +:+ "/" +:+ link;
                             DocPage.lastUpdated := lastUpdated |} ])
      | Throw _ => results
      end
  end.

Definition checkDocumentationUpdates (now : nat → Z) (response : FetchOutcome string)
    : list DocPage.t :=
  match response with
  | NetworkError => []
  | Response false _ _ => []
  | Response true _ None => []
  | Response true _ (Some html) =>
      pushPages now 0 (add_all (JS.exec_all JS.match_doc_link html 0) []) []
  end.

Definition headingText (capture : string) : string :=
  JS.trim (JS.strip_tags capture 0).

Definition checkReleaseNotes (response : FetchOutcome string) : list string :=
  match response with
  | NetworkError => []
  | Response false _ _ => []
  | Response true _ None => []
  | Response true _ (Some html) =>
      filter (λ text, bool_decide (text ≠ EmptyString))
        (map headingText (JS.exec_all JS.match_heading html 0))
  end.

(** *** The renderer *)

(** [for (const x of xs) { md += ... }] where the body can throw. *)
Fixpoint for_of {A : Type} (xs : list A) (body : A → string → Completion string)
    (md : string) : Completion string :=
  match xs with
  | [] => Normal md
  | x :: rest => md' ← body x md; for_of rest body md'
  end.

Definition commitItem (commit : GitHubCommit.t) (md : string) : Completion string :=
  let md := md +:+ "- [" +:+ GitHubCommit.sha commit +:+ "]("
               +:+ GitHubCommit.html_url commit +:+ ") - "
               +:+ GitHubCommit.message (GitHubCommit.commit commit) +:+ JS.nl in
  at_ ← Date.toISOString
          (Date_parse (GitHubCommit.date (GitHubCommit.author (GitHubCommit.commit commit))));
  mret (md +:+ "  - by "
           +:+ GitHubCommit.name (GitHubCommit.author (GitHubCommit.commit commit))
           +:+ " at " +:+ at_ +:+ JS.nl).

Definition commitsSection (commits : list GitHubCommit.t) (md : string)
    : Completion string :=
  if (0 <? length commits)%nat then
    let md := md +:+ "## GitHub Commits (" +:+ JS.length_toString (length commits)
                 +:+ ")" +:+ JS.nl +:+ JS.nl in
    md ← for_of commits commitItem md;
    mret (md +:+ JS.nl)
  else
    mret (md +:+ "## GitHub Commits" +:+ JS.nl +:+ JS.nl
             +:+ "No commits in the last 24 hours." +:+ JS.nl +:+ JS.nl).

Definition releaseItem (release : GitHubRelease.t) (md : string) : Completion string :=
  let md := md +:+ "- [" +:+ GitHubRelease.tag_name release +:+ "]("
               +:+ GitHubRelease.html_url release +:+ ") - "
               +:+ GitHubRelease.name release +:+ JS.nl in
  let md := md +:+ "  - " +:+ GitHubRelease.body release +:+ JS.nl in
  published ← Date.toISOString (Date_new (GitHubRelease.published_at release));
  mret (md +:+ "  - Published: " +:+ published +:+ JS.nl).

Definition releasesSection (releases : list GitHubRelease.t) (md : string)
    : Completion string :=
  if (0 <? length releases)%nat then
    let md := md +:+ "## Releases (" +:+ JS.length_toString (length releases)
                 +:+ ")" +:+ JS.nl +:+ JS.nl in
    md ← for_of releases releaseItem md;
    mret (md +:+ JS.nl)
  else
    mret (md +:+ "## Releases" +:+ JS.nl +:+ JS.nl
             +:+ "No new releases in the last 24 hours." +:+ JS.nl +:+ JS.nl).

Definition prItem (pr : GitHubPR.t) (md : string) : Completion string :=
  let md := md +:+ "- [#" +:+ JS.Number_toString (Some (GitHubPR.number pr)) +:+ "]("
               +:+ GitHubPR.html_url pr +:+ ") - " +:+ GitHubPR.title pr +:+ JS.nl in
  merged ← Date.toISOString (Date_new (GitHubPR.merged_at pr));
  mret (md +:+ "  - Merged: " +:+ merged +:+ JS.nl).

Definition pullRequestsSection (prs : list GitHubPR.t) (md : string)
    : Completion string :=
  if (0 <? length prs)%nat then
    let md := md +:+ "## Merged Pull Requests (" +:+ JS.length_toString (length prs)
                 +:+ ")" +:+ JS.nl +:+ JS.nl in
    md ← for_of prs prItem md;
    mret (md +:+ JS.nl)
  else
    mret (md +:+ "## Merged Pull Requests" +:+ JS.nl +:+ JS.nl
             +:+ "No PRs merged in the last 24 hours." +:+ JS.nl +:+ JS.nl).

Definition docItem (doc : DocPage.t) (md : string) : string :=
  md +:+ "- [" +:+ DocPage.title doc +:+ "](" +:+ DocPage.url doc +:+ ")" +:+ JS.nl.

Definition docsSection (docs : list DocPage.t) (md : string) : string :=
  if (0 <? length docs)%nat then
    let md := md +:+ "## Documentation Pages (" +:+ JS.length_toString (length docs)
                 +:+ ")" +:+ JS.nl +:+ JS.nl in
    let md := md +:+ "*Current documentation pages available:" +:+ JS.nl +:+ JS.nl in
    let md := fold_left (λ md doc, docItem doc md) (JS.slice0 docs 20) md in
    let md :=
      if (20 <? length docs)%nat then
        md +:+ JS.nl +:+ "*... and " +:+ JS.length_toString (length docs - 20)
           +:+ " more pages*" +:+ JS.nl
      else md in
    md +:+ JS.nl
  else md.

Definition noteItem (note : string) (md : string) : string :=
  md +:+ "- " +:+ note +:+ JS.nl.

Definition releaseNotesSection (notes : list string) (md : string) : string :=
  if (0 <? length notes)%nat then
    let md := md +:+ "## Platform Release Notes" +:+ JS.nl +:+ JS.nl in
    let md := fold_left (λ md note, noteItem note md) (JS.slice0 notes 10) md in
    let md :=
      if (10 <? length notes)%nat then
        md +:+ JS.nl +:+ "*... and " +:+ JS.length_toString (length notes - 10)
           +:+ " more entries*" +:+ JS.nl
      else md in
    md +:+ JS.nl
  else md.

Definition footer (md : string) : string :=
  let md := md +:+ "---" +:+ JS.nl in
  let md := md +:+ "*Generated by [claude-code-anthropic-docs](https://github.com/ebowwa/claude-code-anthropic-docs) daily automation*" +:+ JS.nl in
  md +:+ "*Data sourced from [anthropics/claude-code](https://github.com/anthropics/claude-code), [code.claude.com](https://code.claude.com/docs), and [platform.claude.com](https://platform.claude.com)*" +:+ JS.nl.

(** The renderer is called in a world, of which it reads the clock. *)
Definition generateMarkdown (w : World) (report : DailyReport.t) : Completion string :=
  let parts := getDateParts (Date_parse (DailyReport.date report)) in
  let md := "# Anthropic Claude Code Documentation Update - "
              +:+ DailyReport.date report +:+ JS.nl +:+ JS.nl in
  generated ← Date.toISOString (Date.of_clock (clock w));
  let md := md +:+ "**Generated:** " +:+ generated +:+ JS.nl +:+ JS.nl in
  let md := md +:+ "## Summary" +:+ JS.nl +:+ JS.nl in
  let md := md +:+ DailyReport.summary report +:+ JS.nl +:+ JS.nl in
  md ← commitsSection (DailyReport.commits (DailyReport.github report)) md;
  md ← releasesSection (DailyReport.releases (DailyReport.github report)) md;
  md ← pullRequestsSection (DailyReport.pullRequests (DailyReport.github report)) md;
  let md := docsSection (DailyReport.docs report) md in
  let md := releaseNotesSection (DailyReport.releaseNotes report) md in
  mret (footer md).

(** *** The writer *)

(** The first three lines of [saveReport]: the directory and the path of the
    report of a date. *)
Definition reportDir (date : Date.t) : string :=
  let parts := getDateParts date in
  "daily/" +:+ year parts +:+ "/" +:+ month parts.

Definition reportPath (date : Date.t) : string :=
  let parts := getDateParts date in
  let dir := "daily/" +:+ year parts +:+ "/" +:+ month parts in
  dir +:+ "/" +:+ day parts +:+ ".md".

(** The identifier [$].  The script declares no [$] and imports none, and the
    runtime has no global of that name: reading it throws a
    [ReferenceError].  Its value would have been the tag of a shell command,
    which acts on the disk. *)
Definition dollar : Completion (string → Disk → Disk) := Throw "ReferenceError".

(** [Bun.write(filepath, text)]: the file has the text afterwards, whatever
    it had before. *)
Definition Bun_write (filepath text : string) (d : Disk) : Disk :=
  {| dirs := dirs d; files := <[filepath := text]> (files d) |}.

(** The path that is returned and the disk afterwards, or the error that is
    thrown. *)
Definition saveReport (markdown : string) (date : Date.t) (d : Disk)
    : Completion (string * Disk) :=
  let dir := reportDir date in
  let filepath := reportPath date in
  shell ← dollar;
  let d := shell ("mkdir -p " +:+ dir) d in
  let d := Bun_write filepath markdown d in
  mret (filepath, d).

(** *** The run *)

(** [`${n} word${n > 1 ? "s" : ""}`] *)
Definition counted (n : nat) (word : string) : string :=
  JS.length_toString n +:+ " " +:+ word +:+ (if (1 <? n)%nat then "s" else "").

(** [if (n > 0) parts.push(...)] *)
Definition push_part (n : nat) (word : string) (parts : list string) : list string :=
  if (0 <? n)%nat then parts ++ [counted n word] else parts.

Definition buildSummary (commits releases prs docs releaseNotes : nat) : string :=
  let parts := [] in
  let parts := push_part commits "commit" parts in
  let parts := push_part releases "release" parts in
  let parts := push_part prs "PR" parts in
  let parts := push_part docs "doc page" parts in
  let parts := push_part releaseNotes "release note" parts in
  if (length parts =? 0)%nat then "No updates detected in the last 24 hours."
  else "Daily updates: " +:+ JS.join ", " parts +:+ ".".

(** The report of [main], from the date and what the fetchers gave. *)
Definition buildReport (dateStr : string) (commits : list GitHubCommit.t)
    (releases : list GitHubRelease.t) (prs : list GitHubPR.t)
    (docs : list DocPage.t) (releaseNotes : list string) : DailyReport.t :=
  {| DailyReport.date := dateStr;
     DailyReport.summary :=
       buildSummary (length commits) (length releases) (length prs)
         (length docs) (length releaseNotes);
     DailyReport.github :=
       {| DailyReport.commits := commits;
          DailyReport.releases := releases;
          DailyReport.pullRequests := prs |};
     DailyReport.docs := docs;
     DailyReport.releaseNotes := releaseNotes |}.

(** What a run meets: the readings of the clock in [main], in the fetchers
    and in the renderer, the outcomes of the five requests, and the disk at
    the start.  The five fetchers of [Promise.all] share nothing, so each has
    its own readings and its own outcome, in whatever order they run. *)
Record Env : Type := {
  now_main : Z;
  now_commits : Z;
  now_releases : Z;
  now_prs : Z;
  now_docs : nat → Z;
  now_render : Z;
  commits_response : FetchOutcome (list GitHubCommit.t);
  releases_response : FetchOutcome (list RawRelease.t);
  prs_response : FetchOutcome (list GitHubPR.t);
  docs_response : FetchOutcome string;
  notes_response : FetchOutcome string;
  disk0 : Disk }.

(** The report a run assembles. *)
Definition report_of (env : Env) : Completion DailyReport.t :=
  let today := Date.of_clock (now_main env) in
  dateStr ← formatDate today;
  commits ← fetchRecentCommits (now_commits env) (commits_response env);
  let releases := fetchRecentReleases (now_releases env) (releases_response env) in
  let prs := fetchRecentPRs (now_prs env) (prs_response env) in
  let docs := checkDocumentationUpdates (now_docs env) (docs_response env) in
  let releaseNotes := checkReleaseNotes (notes_response env) in
  mret (buildReport dateStr commits releases prs docs releaseNotes).

(** [main]: the path of the report and the disk at the end, or the error
    that ends the run. *)
Definition main (env : Env) : Completion (string * Disk) :=
  let today := Date.of_clock (now_main env) in
  report ← report_of env;
  markdown ← generateMarkdown {| clock := now_render env; disk := disk0 env |} report;
  saveReport markdown today (disk0 env).

End Scraper.

(** ** Decimal numerals *)

Definition digit_value (c : ascii) : option Z :=
  let n := nat_of_ascii c in
  if ((48 <=? n) && (n <=? 57))%nat then Some (Z.of_nat n - 48)%Z else None.

Fixpoint numeral_value_from (acc : Z) (s : string) : option Z :=
  match s with
  | EmptyString => Some acc
  | String c r => d ← digit_value c; numeral_value_from (10 * acc + d)%Z r
  end.

(** The number that a non-empty string of decimal digits writes. *)
Definition numeral_value (s : string) : option Z :=
  match s with
  | EmptyString => None
  | _ => numeral_value_from 0 s
  end.

(** ** A host to run the script on

    A [Date.parse] that reads the one format the upstream API writes,
    [YYYY-MM-DDTHH:MM:SSZ], and takes every other string for an invalid date;
    and the time zone UTC. *)

Module Host.
Local Open Scope Z_scope.

(** The day number of a civil date, counted from 1970-01-01. *)
Definition days_from_civil (y m d : Z) : Z :=
  let y' := if m <=? 2 then y - 1 else y in
  let era := y' / 400 in
  let yoe := y' mod 400 in
  let doy := (153 * (if 2 <? m then m - 3 else m + 9) + 2) / 5 + d - 1 in
  let doe := yoe * 365 + yoe / 4 - yoe / 100 + doy in
  era * 146097 + doe - 719468.

Definition field (s : string) (from len : nat) : option Z :=
  numeral_value (JS.substring s from (from + len)).

Definition separators_ok (s : string) : bool :=
  bool_decide (JS.substring s 4 5 = "-" ∧ JS.substring s 7 8 = "-"
               ∧ JS.substring s 10 11 = "T" ∧ JS.substring s 13 14 = ":"
               ∧ JS.substring s 16 17 = ":" ∧ JS.substring s 19 20 = "Z"
               ∧ String.length s = 20%nat).

Definition Date_parse (s : string) : option Z :=
  if separators_ok s then
    y ← field s 0 4; m ← field s 5 2; d ← field s 8 2;
    h ← field s 11 2; mi ← field s 14 2; sec ← field s 17 2;
    if (1 <=? m) && (m <=? 12) && (1 <=? d) && (d <=? 31)
       && (h <? 24) && (mi <? 60) && (sec <? 60)
    then Some (days_from_civil y m d * Date.msPerDay + h * 3600000 + mi * 60000 + sec * 1000)
    else None
  else None.

Definition LocalTZA (tv : Z) : Z := 0.

End Host.

(** ** Vocabulary of the properties *)

(** The clock reads a time value from which a day can be taken away: an
    instant of the range of [Date], its first day apart. *)
Definition clock_reading (now : Z) : Prop :=
  (86400000 - Date.maxTimeValue ≤ now ≤ Date.maxTimeValue)%Z.

(** [p] is [daily/Y/M/D.md] where [Y] writes the year [y] in four digits,
    [M] the month [m] in two and [D] the day [d] in two. *)
Definition dated_path (y m d : Z) (p : string) : Prop :=
  ∃ Y M D : string,
    p = "daily/" +:+ Y +:+ "/" +:+ M +:+ "/" +:+ D +:+ ".md"
    ∧ String.length Y = 4%nat ∧ numeral_value Y = Some y
    ∧ String.length M = 2%nat ∧ numeral_value M = Some m
    ∧ String.length D = 2%nat ∧ numeral_value D = Some d.

(** No [/] in [s]. *)
Definition no_slash (s : string) : Prop := JS.index_of "/" s = None.

(** The concatenation of the strings of a list. *)
Definition concat_strings (l : list string) : string :=
  fold_right String.append EmptyString l.

(** The line of a documentation page in the report. *)
Definition docLine (doc : DocPage.t) : string :=
  "- [" +:+ DocPage.title doc +:+ "](" +:+ DocPage.url doc +:+ ")" +:+ JS.nl.

(** The heading of the documentation section for [n] pages. *)
Definition docsHeading (n : nat) : string :=
  "## Documentation Pages (" +:+ JS.length_toString n +:+ ")" +:+ JS.nl +:+ JS.nl
  +:+ "*Current documentation pages available:" +:+ JS.nl +:+ JS.nl.

(** The text of a report without any entry. *)
Definition emptyReportText (date generated summary : string) : string :=
  "# Anthropic Claude Code Documentation Update - " +:+ date +:+ JS.nl +:+ JS.nl
  +:+ "**Generated:** " +:+ generated +:+ JS.nl +:+ JS.nl
  +:+ "## Summary" +:+ JS.nl +:+ JS.nl
  +:+ summary +:+ JS.nl +:+ JS.nl
  +:+ "## GitHub Commits" +:+ JS.nl +:+ JS.nl
  +:+ "No commits in the last 24 hours." +:+ JS.nl +:+ JS.nl
  +:+ "## Releases" +:+ JS.nl +:+ JS.nl
  +:+ "No new releases in the last 24 hours." +:+ JS.nl +:+ JS.nl
  +:+ "## Merged Pull Requests" +:+ JS.nl +:+ JS.nl
  +:+ "No PRs merged in the last 24 hours." +:+ JS.nl +:+ JS.nl
  +:+ "---" +:+ JS.nl
  +:+ "*Generated by [claude-code-anthropic-docs](https://github.com/ebowwa/claude-code-anthropic-docs) daily automation*" +:+ JS.nl
  +:+ "*Data sourced from [anthropics/claude-code](https://github.com/anthropics/claude-code), [code.claude.com](https://code.claude.com/docs), and [platform.claude.com](https://platform.claude.com)*" +:+ JS.nl.

(** [P] holds of the [n] integers from [lo] on. *)
Fixpoint all_from (P : Z → bool) (lo : Z) (n : nat) : bool :=
  match n with
  | O => true
  | S k => P lo && all_from P (lo + 1)%Z k
  end.

(** The decimal form of [y] has four digits and writes [y]. *)
Definition four_digits (y : Z) : bool :=
  let s := JS.Number_toString (Some y) in
  (String.length s =? 4)%nat && bool_decide (numeral_value s = Some y).

(** The decimal form of [z], padded with [0] to two places, has two digits
    and writes [z]. *)
Definition two_digits (z : Z) : bool :=
  let s := JS.padStart (JS.Number_toString (Some z)) 2 "0" in
  (String.length s =? 2)%nat && bool_decide (numeral_value s = Some z).

(** ** Sample inputs *)

Module Sample.

(** 2025-03-07T12:00:00Z. *)
Definition noon : Z := 1741348800000.

Definition no_disk : Disk := {| dirs := ∅; files := ∅ |}.

Definition pr_merged : GitHubPR.t :=
  {| GitHubPR.number := 101;
     GitHubPR.title := "Fix the file watcher";
     GitHubPR.html_url := "https://github.com/anthropics/claude-code/pull/101";
     GitHubPR.merged_at := JS.JSStr "2025-03-07T09:30:00Z" |}.

Definition pr_closed : GitHubPR.t :=
  {| GitHubPR.number := 102;
     GitHubPR.title := "Abandoned";
     GitHubPR.html_url := "https://github.com/anthropics/claude-code/pull/102";
     GitHubPR.merged_at := JS.JSNull |}.

(** Merged at the start of the window of [noon]. *)
Definition pr_boundary : GitHubPR.t :=
  {| GitHubPR.number := 103;
     GitHubPR.title := "Merged a day ago";
     GitHubPR.html_url := "https://github.com/anthropics/claude-code/pull/103";
     GitHubPR.merged_at := JS.JSStr "2025-03-06T12:00:00Z" |}.

Definition prs : list GitHubPR.t := [pr_merged; pr_closed; pr_boundary].

Definition release_new : RawRelease.t :=
  {| RawRelease.tag_name := "v1.0.1";
     RawRelease.name := JS.JSNull;
     RawRelease.html_url := "https://github.com/anthropics/claude-code/releases/tag/v1.0.1";
     RawRelease.published_at := JS.JSStr "2025-03-07T10:00:00Z";
     RawRelease.body := JS.JSStr "Bug fixes" |}.

Definition release_newer : RawRelease.t :=
  {| RawRelease.tag_name := "v1.0.2";
     RawRelease.name := JS.JSStr "Patch";
     RawRelease.html_url := "https://github.com/anthropics/claude-code/releases/tag/v1.0.2";
     RawRelease.published_at := JS.JSStr "2025-03-07T11:00:00Z";
     RawRelease.body := JS.JSStr "" |}.

Definition release_old : RawRelease.t :=
  {| RawRelease.tag_name := "v1.0.0";
     RawRelease.name := JS.JSStr "First";
     RawRelease.html_url := "https://github.com/anthropics/claude-code/releases/tag/v1.0.0";
     RawRelease.published_at := JS.JSStr "2025-03-01T10:00:00Z";
     RawRelease.body := JS.JSNull |}.

Definition releases : list RawRelease.t := [release_new; release_old; release_newer].

Definition commit : GitHubCommit.t :=
  {| GitHubCommit.sha := "0123456789abcdef0123456789abcdef01234567";
     GitHubCommit.commit :=
       {| GitHubCommit.message := "Update the changelog" +:+ JS.nl +:+ JS.nl +:+ "Details.";
          GitHubCommit.author :=
            {| GitHubCommit.name := "Ann"; GitHubCommit.date := "2025-03-07T08:00:00Z" |} |};
     GitHubCommit.html_url := "https://github.com/anthropics/claude-code/commit/0123456" |}.

(** A run in which every request fails. *)
Definition env_down : Env :=
  {| now_main := noon; now_commits := (noon + 1)%Z; now_releases := (noon + 40)%Z;
     now_prs := (noon + 50)%Z; now_docs := λ k, (noon + 60 + Z.of_nat k)%Z;
     now_render := (noon + 2000)%Z;
     commits_response := NetworkError;
     releases_response := Response false 403 None;
     prs_response := Response false 500 (Some prs);
     docs_response := NetworkError;
     notes_response := Response false 404 (Some "Not Found");
     disk0 := no_disk |}.

(** A run with one commit and two releases in the window. *)
Definition env_quiet : Env :=
  {| now_main := noon; now_commits := (noon + 1)%Z; now_releases := (noon + 40)%Z;
     now_prs := (noon + 50)%Z; now_docs := λ k, (noon + 60 + Z.of_nat k)%Z;
     now_render := (noon + 2000)%Z;
     commits_response := Response true 200 (Some [commit]);
     releases_response := Response true 200 (Some releases);
     prs_response := Response true 200 (Some [pr_closed]);
     docs_response := Response true 200 (Some "<html></html>");
     notes_response := Response false 404 None;
     disk0 := no_disk |}.

Definition page (i : nat) : DocPage.t :=
  {| DocPage.title := "page-" +:+ JS.length_toString i;
     DocPage.url := DOCS_BASE_URL +:+ "/en/page-" +:+ JS.length_toString i;
     DocPage.lastUpdated := "2025-03-07T12:00:00.060Z" |}.

Definition pages25 : list DocPage.t := map page (seq 1 25).

End Sample.

(** ** Further vocabulary *)

(** Every code unit of [s] passes [P]. *)
Fixpoint all_chars (P : ascii → bool) (s : string) : bool :=
  match s with
  | EmptyString => true
  | String c r => P c && all_chars P r
  end.

(** No [<] of [s] has a [>] after it: there is no tag in [s]. *)
Fixpoint no_tag (s : string) : bool :=
  match s with
  | EmptyString => true
  | String c r =>
      (if Ascii.eqb c "<" then bool_decide (JS.index_of ">" r = None) else true)
      && no_tag r
  end.

(** The text that the link expression matches for the path [link]. *)
Definition docAnchor (link : string) : string :=
  "href=" +:+ String JS.dquote "/docs/" +:+ link +:+ String JS.dquote EmptyString.

(** The line of a release note in the report, and the heading of the
    section. *)
Definition noteLine (note : string) : string := "- " +:+ note +:+ JS.nl.
Definition notesHeading : string := "## Platform Release Notes" +:+ JS.nl +:+ JS.nl.

(** The start of every report, and its end. *)
Definition reportHeading (date generated summary : string) : string :=
  "# Anthropic Claude Code Documentation Update - " +:+ date +:+ JS.nl +:+ JS.nl
  +:+ "**Generated:** " +:+ generated +:+ JS.nl +:+ JS.nl
  +:+ "## Summary" +:+ JS.nl +:+ JS.nl
  +:+ summary +:+ JS.nl +:+ JS.nl.
Definition footerText : string :=
  "---" +:+ JS.nl
  +:+ "*Generated by [claude-code-anthropic-docs](https://github.com/ebowwa/claude-code-anthropic-docs) daily automation*" +:+ JS.nl
  +:+ "*Data sourced from [anthropics/claude-code](https://github.com/anthropics/claude-code), [code.claude.com](https://code.claude.com/docs), and [platform.claude.com](https://platform.claude.com)*" +:+ JS.nl.

(** The dates of an entry that the renderer turns into text are valid. *)
Definition commit_date_ok (Date_parse : string → option Z) (c : GitHubCommit.t) : bool :=
  bool_decide (is_Some (Date_parse (GitHubCommit.date (GitHubCommit.author (GitHubCommit.commit c))))).
Definition release_date_ok (Date_parse : string → option Z) (r : GitHubRelease.t) : bool :=
  bool_decide (is_Some (Date_new Date_parse (GitHubRelease.published_at r))).
Definition pr_date_ok (Date_parse : string → option Z) (pr : GitHubPR.t) : bool :=
  bool_decide (is_Some (Date_new Date_parse (GitHubPR.merged_at pr))).

(** The commits that the fetcher gives for a response. *)
Definition fetched_commits (response : FetchOutcome (list GitHubCommit.t))
    : list GitHubCommit.t :=
  match response with
  | Response true _ (Some commits) => map toCommit commits
  | _ => []
  end.

(** A code unit other than [h], with which the link expression starts. *)
Definition not_h (c : ascii) : bool := negb (Ascii.eqb c "h").

(** An anchor for each path, each after a text of its own. *)
Definition anchors (items : list (string * string)) : string :=
  concat_strings (map (λ item, item.1 +:+ docAnchor item.2) items).

(** A code unit that [.] matches: not a line terminator. *)
Definition in_line (c : ascii) : bool := negb (JS.is_line_terminator c).

(** The distinct members of a list, each at the place where it is first
    met. *)
Fixpoint first_occurrences (l : list string) : list string :=
  match l with
  | [] => []
  | x :: rest => x :: filter (λ y, y ≠ x) (first_occurrences rest)
  end.

(** The run gets as far as the writer: the commit fetcher can write the
    start of its window, and the engine can parse the author date of every
    commit of a successful response. *)
Definition reaches_writer (Date_parse : string → option Z) (env : Env) : Prop :=
  (Z.abs (now_commits env - 86400000) ≤ Date.maxTimeValue)%Z
  ∧ ∀ (status : Z) (commits : list GitHubCommit.t) (c : GitHubCommit.t),
      commits_response env = Response true status (Some commits) → c ∈ commits →
      is_Some (Date_parse (GitHubCommit.date (GitHubCommit.author (GitHubCommit.commit c)))).

(** The text that the heading expression matches: an opening tag [<], [o],
    [l] with the attributes [attrs], the text [inner], and a closing tag
    [</], [e], [f], [>]. *)
Definition headingElement (o l : ascii) (attrs inner : string) (e f : ascii) : string :=
  String "<" (String o (String l (attrs +:+ String ">" (inner
    +:+ String "<" (String "/" (String e (String f (String ">" EmptyString)))))))).

(** * Properties *)

(** ** Strings *)

Lemma append_cons (x : ascii) (a b : string) : String x a +:+ b = String x (a +:+ b).
Proof. reflexivity. Qed.

Lemma append_empty_l (a : string) : "" +:+ a = a.
Proof. reflexivity. Qed.

Lemma append_assoc (a b c : string) : (a +:+ b) +:+ c = a +:+ b +:+ c.
Proof.
  induction a as [|x a IH]; [reflexivity |].
  rewrite !append_cons. now f_equal.
Qed.

Lemma append_empty_r (a : string) : a +:+ "" = a.
Proof.
  induction a as [|x a IH]; [reflexivity |].
  rewrite append_cons. now f_equal.
Qed.

Lemma length_append (a b : string) :
  String.length (a +:+ b) = (String.length a + String.length b)%nat.
Proof.
  induction a as [|x a IH]; [reflexivity |].
  rewrite append_cons. cbn. now f_equal.
Qed.

Lemma take_drop (n : nat) (s : string) : JS.take n s +:+ JS.drop n s = s.
Proof.
  revert s; induction n as [|n IH]; intros [|c s]; try reflexivity.
  cbn [JS.take JS.drop]. rewrite append_cons. now f_equal.
Qed.

Lemma length_take (n : nat) (s : string) :
  String.length (JS.take n s) = Nat.min n (String.length s).
Proof.
  revert s; induction n as [|n IH]; intros [|c s]; cbn; try reflexivity.
  now f_equal.
Qed.

Lemma substring_from_0 (s : string) (n : nat) : JS.substring s 0 n = JS.take n s.
Proof. unfold JS.substring. rewrite Nat.min_0_l, Nat.max_0_l, Nat.sub_0_r. reflexivity. Qed.

Lemma or_nonempty (a b : string) : a ≠ "" → JS.or a b = a.
Proof. destruct a; [congruence | reflexivity]. Qed.

Lemma append_ellipsis_nonempty (p : string) : p +:+ "..." ≠ "".
Proof. destruct p; discriminate. Qed.

(** ** The release fetcher: the body of a release *)

(** What the mapping makes of the body, case by case. *)
Lemma toRelease_body (r : RawRelease.t) :
  GitHubRelease.body (toRelease r) =
    match RawRelease.body r with
    | JS.JSStr s => JS.take 200 s +:+ "..."
    | _ => "undefined..."
    end.
Proof.
  unfold toRelease; cbn [GitHubRelease.body].
  destruct (RawRelease.body r) as [| |s]; try reflexivity.
  cbn [JS.opt_substring JS.plus JS.ToString].
  rewrite substring_from_0. apply or_nonempty, append_ellipsis_nonempty.
Qed.

(** C1, at a release whose body is [null]: the mapped body is the text
    [undefined...], not the empty string; the fallback [|| ""] of the
    expression is never taken, since [+] binds tighter than [||]. *)
Theorem toRelease_body_null :
  GitHubRelease.body
    (toRelease {| RawRelease.tag_name := "v1.0.0";
                  RawRelease.name := JS.JSNull;
                  RawRelease.html_url := "https://github.com/anthropics/claude-code/releases/tag/v1.0.0";
                  RawRelease.published_at := JS.JSStr "2025-03-07T10:00:00Z";
                  RawRelease.body := JS.JSNull |})
  = "undefined...".
Proof. reflexivity. Qed.

(** C9: for every release whose body is a string, the mapped body is the
    first 200 code units of it (all of it when it is shorter) followed by
    [...]; so it always ends with [...], and the empty body gives exactly
    [...]. *)
Theorem toRelease_body_ends_with_ellipsis (r : RawRelease.t) (s : string) :
  RawRelease.body r = JS.JSStr s →
  (∃ p rest : string,
      s = p +:+ rest
      ∧ String.length p = Nat.min 200 (String.length s)
      ∧ GitHubRelease.body (toRelease r) = p +:+ "...")
  ∧ (s = "" → GitHubRelease.body (toRelease r) = "...").
Proof.
  intros Hbody. rewrite toRelease_body, Hbody. split.
  - exists (JS.take 200 s), (JS.drop 200 s).
    split; [symmetry; apply take_drop |]. split; [apply length_take | reflexivity].
  - intros ->. reflexivity.
Qed.

Lemma toRelease_body_ends_with_ellipsis_witness :
  GitHubRelease.body
    (toRelease {| RawRelease.tag_name := "v1.0.1";
                  RawRelease.name := JS.JSStr "Patch";
                  RawRelease.html_url := "https://github.com/anthropics/claude-code/releases/tag/v1.0.1";
                  RawRelease.published_at := JS.JSStr "2025-03-07T10:00:00Z";
                  RawRelease.body := JS.JSStr "" |})
  = "...".
Proof.
  refine (proj2 (toRelease_body_ends_with_ellipsis _ "" _) _); reflexivity.
Defined.

(** ** The time window of the release and pull-request fetchers *)

Section Window.
Variable Date_parse : string → option Z.
Hypothesis Date_parse_empty : Date_parse "" = None.

Lemma oneDayAgo_value (now : Z) :
  clock_reading now → oneDayAgo now = Some (now - 86400000)%Z.
Proof.
  unfold clock_reading, oneDayAgo, Date.of_number, Date.TimeClip, Date.maxTimeValue.
  intros Hnow.
  replace (now - 24 * 60 * 60 * 1000)%Z with (now - 86400000)%Z by lia.
  destruct (Z.leb_spec (Z.abs (now - 86400000)) 8640000000000000); [reflexivity | lia].
Qed.

Lemma gt_oneDayAgo (now : Z) (d : Date.t) :
  clock_reading now →
  Date.gt d (oneDayAgo now) = true ↔ ∃ t : Z, d = Some t ∧ (now - 86400000 < t)%Z.
Proof.
  intros Hnow. rewrite (oneDayAgo_value now Hnow). destruct d as [t|]; cbn.
  - rewrite Z.ltb_lt. split; [eauto | intros (t' & [= <-] & ?); assumption].
  - split; [discriminate | intros (t' & [=] & _)].
Qed.

(** A timestamp passes the filter when it is a string that the engine
    parses to an instant after the start of the window. *)
Lemma in_window (now : Z) (v : JS.JSValue) :
  clock_reading now →
  JS.truthy v && Date.gt (Date_new Date_parse v) (oneDayAgo now) = true
  ↔ ∃ (s : string) (t : Z),
      v = JS.JSStr s ∧ Date_parse s = Some t ∧ (now - 86400000 < t)%Z.
Proof.
  intros Hnow. rewrite andb_true_iff, (gt_oneDayAgo now _ Hnow). split.
  - intros [Htruthy (t & Hparse & Hlt)].
    destruct v as [| |[|c s]]; try discriminate. eauto.
  - intros (s & t & -> & Hparse & Hlt).
    destruct s as [|c s]; [congruence |]. split; [reflexivity | eauto].
Qed.

Lemma toPR_id (pr : GitHubPR.t) : toPR pr = pr.
Proof. now destruct pr. Qed.

Lemma published_at_toRelease (r : RawRelease.t) :
  GitHubRelease.published_at (toRelease r) = RawRelease.published_at r.
Proof. reflexivity. Qed.

Lemma elem_of_filter_map {A B : Type} (f : A → B) (keep : A → bool) (l : list A) (y : B) :
  y ∈ map f (filter keep l) ↔ ∃ x : A, x ∈ l ∧ keep x = true ∧ f x = y.
Proof.
  rewrite list_elem_of_In, in_map_iff. split.
  - intros (x & <- & Hx). apply list_elem_of_In, list_elem_of_filter in Hx.
    destruct Hx as [Hkeep Hx]. exists x. split; [assumption |]. split; [|reflexivity].
    now apply Is_true_true.
  - intros (x & Hx & Hkeep & <-). exists x. split; [reflexivity |].
    apply list_elem_of_In, list_elem_of_filter. split; [now apply Is_true_true | assumption].
Qed.

End Window.

(** C2: of the closed requests that the upstream query returns, the fetcher
    returns exactly those merged strictly after [now - 24h]: an entry is in
    the output iff its merge timestamp is a string that parses to an instant
    [t] with [now - 86400000 < t].  An entry whose merge timestamp is [null],
    and one merged at the boundary instant itself, are left out. *)
Theorem fetchRecentPRs_window (Date_parse : string → option Z) (now status : Z)
    (prs : list GitHubPR.t) (pr : GitHubPR.t) :
  Date_parse "" = None →
  clock_reading now →
  pr ∈ prs →
  (toPR pr ∈ fetchRecentPRs Date_parse now (Response true status (Some prs))
   ↔ ∃ (s : string) (t : Z),
       GitHubPR.merged_at pr = JS.JSStr s ∧ Date_parse s = Some t
       ∧ (now - 86400000 < t)%Z)
  ∧ (GitHubPR.merged_at pr = JS.JSNull →
     toPR pr ∉ fetchRecentPRs Date_parse now (Response true status (Some prs)))
  ∧ (∀ s : string,
       GitHubPR.merged_at pr = JS.JSStr s → Date_parse s = Some (now - 86400000)%Z →
       toPR pr ∉ fetchRecentPRs Date_parse now (Response true status (Some prs))).
Proof.
  intros Hempty Hnow Hin.
  assert (Hiff : toPR pr ∈ fetchRecentPRs Date_parse now (Response true status (Some prs))
                 ↔ ∃ (s : string) (t : Z),
                     GitHubPR.merged_at pr = JS.JSStr s ∧ Date_parse s = Some t
                     ∧ (now - 86400000 < t)%Z).
  { cbn [fetchRecentPRs]. rewrite elem_of_filter_map.
    rewrite <- (in_window Date_parse Hempty now _ Hnow). split.
    - intros (x & _ & Hkeep & Heq). rewrite !toPR_id in Heq. now subst x.
    - intros Hkeep. exists pr. auto. }
  split; [exact Hiff |]. split.
  - intros Hnull (s & t & Hs & _)%Hiff. congruence.
  - intros s Hs Hparse (s' & t & Hs' & Hparse' & Hlt)%Hiff.
    rewrite Hs in Hs'. injection Hs' as <-. rewrite Hparse in Hparse'.
    injection Hparse' as <-. lia.
Qed.

(** C3: of the releases that the upstream query returns, the fetcher returns
    exactly those published strictly after [now - 24h]: an entry is in the
    output iff its publish timestamp is a string that parses to an instant
    [t] with [now - 86400000 < t]. *)
Theorem fetchRecentReleases_window (Date_parse : string → option Z) (now status : Z)
    (releases : list RawRelease.t) (r : RawRelease.t) :
  Date_parse "" = None →
  clock_reading now →
  r ∈ releases →
  toRelease r ∈ fetchRecentReleases Date_parse now (Response true status (Some releases))
  ↔ ∃ (s : string) (t : Z),
      RawRelease.published_at r = JS.JSStr s ∧ Date_parse s = Some t
      ∧ (now - 86400000 < t)%Z.
Proof.
  intros Hempty Hnow Hin. cbn [fetchRecentReleases]. rewrite elem_of_filter_map.
  rewrite <- (in_window Date_parse Hempty now _ Hnow). split.
  - intros (x & _ & Hkeep & Heq).
    apply (f_equal GitHubRelease.published_at) in Heq.
    rewrite !published_at_toRelease in Heq. unfold keepRelease in Hkeep.
    now rewrite <- Heq.
  - intros Hkeep. exists r. auto.
Qed.

(** ** A run in which every fetcher fails *)

Lemma bind_Normal {A B : Type} (a : A) (k : A → Completion B) : (Normal a ≫= k) = k a.
Proof. reflexivity. Qed.

Lemma toISOString_valid (tv : Z) : ∃ s : string, Date.toISOString (Some tv) = Normal s.
Proof. eexists. reflexivity. Qed.

Lemma fetchRecentCommits_failed (now : Z) (response : FetchOutcome (list GitHubCommit.t)) :
  clock_reading now → fetch_failed response → fetchRecentCommits now response = Normal [].
Proof.
  intros Hnow Hfail. unfold fetchRecentCommits. rewrite (oneDayAgo_value now Hnow).
  destruct (toISOString_valid (now - 86400000)) as [since ->]. rewrite bind_Normal.
  destruct response as [|ok status payload]; [reflexivity |].
  cbn in Hfail. now subst ok.
Qed.

Lemma fetchRecentReleases_failed (Date_parse : string → option Z) (now : Z)
    (response : FetchOutcome (list RawRelease.t)) :
  fetch_failed response → fetchRecentReleases Date_parse now response = [].
Proof. destruct response as [|ok status payload]; [reflexivity |]. cbn. now intros ->. Qed.

Lemma fetchRecentPRs_failed (Date_parse : string → option Z) (now : Z)
    (response : FetchOutcome (list GitHubPR.t)) :
  fetch_failed response → fetchRecentPRs Date_parse now response = [].
Proof. destruct response as [|ok status payload]; [reflexivity |]. cbn. now intros ->. Qed.

Lemma checkDocumentationUpdates_failed (now : nat → Z) (response : FetchOutcome string) :
  fetch_failed response → checkDocumentationUpdates now response = [].
Proof. destruct response as [|ok status payload]; [reflexivity |]. cbn. now intros ->. Qed.

Lemma checkReleaseNotes_failed (response : FetchOutcome string) :
  fetch_failed response → checkReleaseNotes response = [].
Proof. destruct response as [|ok status payload]; [reflexivity |]. cbn. now intros ->. Qed.

(** The text of a report without entries. *)
Lemma generateMarkdown_empty (Date_parse : string → option Z) (LocalTZA : Z → Z)
    (w : World) (dateStr generated summary : string) :
  Date.toISOString (Date.of_clock (clock w)) = Normal generated →
  generateMarkdown Date_parse LocalTZA w
    {| DailyReport.date := dateStr;
       DailyReport.summary := summary;
       DailyReport.github :=
         {| DailyReport.commits := []; DailyReport.releases := [];
            DailyReport.pullRequests := [] |};
       DailyReport.docs := [];
       DailyReport.releaseNotes := [] |}
  = Normal (emptyReportText dateStr generated summary).
Proof.
  intros Hgen. unfold generateMarkdown. rewrite Hgen, bind_Normal.
  cbn [DailyReport.date DailyReport.summary DailyReport.github DailyReport.commits
       DailyReport.releases DailyReport.pullRequests DailyReport.docs
       DailyReport.releaseNotes].
  unfold commitsSection, releasesSection, pullRequestsSection, docsSection,
    releaseNotesSection, footer, emptyReportText.
  cbn [length Nat.ltb Nat.leb]. rewrite !bind_Normal.
  unfold mret, Completion_ret. f_equal. rewrite !append_assoc. reflexivity.
Qed.

(** [saveReport] reads [$] before it writes anything. *)
Lemma saveReport_throws (LocalTZA : Z → Z) (markdown : string) (date : Date.t) (d : Disk) :
  saveReport LocalTZA markdown date d = Throw "ReferenceError".
Proof. reflexivity. Qed.

(** C4: when each of the five requests fails, by a network error or a
    response that is not a success, every fetcher gives the empty collection
    and none raises; the report that the run assembles has the summary
    [No updates detected in the last 24 hours.] and the renderer gives its
    text.  But the run does not end normally and no report is written:
    [saveReport] throws a [ReferenceError] at [$], which is bound nowhere,
    before it writes. *)
Theorem main_when_every_fetcher_fails (Date_parse : string → option Z)
    (LocalTZA : Z → Z) (env : Env) :
  clock_reading (now_commits env) →
  fetch_failed (commits_response env) →
  fetch_failed (releases_response env) →
  fetch_failed (prs_response env) →
  fetch_failed (docs_response env) →
  fetch_failed (notes_response env) →
  (fetchRecentCommits (now_commits env) (commits_response env) = Normal []
   ∧ fetchRecentReleases Date_parse (now_releases env) (releases_response env) = []
   ∧ fetchRecentPRs Date_parse (now_prs env) (prs_response env) = []
   ∧ checkDocumentationUpdates (now_docs env) (docs_response env) = []
   ∧ checkReleaseNotes (notes_response env) = [])
  ∧ ∃ (report : DailyReport.t) (generated : string),
      report_of Date_parse env = Normal report
      ∧ DailyReport.summary report = "No updates detected in the last 24 hours."
      ∧ Date.toISOString (Date.of_clock (now_render env)) = Normal generated
      ∧ generateMarkdown Date_parse LocalTZA
          {| clock := now_render env; disk := disk0 env |} report
        = Normal (emptyReportText (DailyReport.date report) generated
                    "No updates detected in the last 24 hours.")
      ∧ main Date_parse LocalTZA env = Throw "ReferenceError".
Proof.
  intros Hnow Hc Hr Hp Hd Hn.
  pose proof (fetchRecentCommits_failed _ _ Hnow Hc) as Ec.
  pose proof (fetchRecentReleases_failed Date_parse (now_releases env) _ Hr) as Er.
  pose proof (fetchRecentPRs_failed Date_parse (now_prs env) _ Hp) as Ep.
  pose proof (checkDocumentationUpdates_failed (now_docs env) _ Hd) as Ed.
  pose proof (checkReleaseNotes_failed _ Hn) as En.
  split; [auto |].
  destruct (toISOString_valid (now_main env)) as [iso Hiso].
  destruct (toISOString_valid (now_render env)) as [generated Hgen].
  set (dateStr := JS.first (JS.split "T" iso)).
  assert (Hreport : report_of Date_parse env = Normal (buildReport dateStr [] [] [] [] [])).
  { unfold report_of, formatDate, Date.of_clock. rewrite Hiso, !bind_Normal.
    rewrite Ec, Er, Ep, Ed, En, bind_Normal. reflexivity. }
  pose proof (generateMarkdown_empty Date_parse LocalTZA
                {| clock := now_render env; disk := disk0 env |} dateStr generated
                "No updates detected in the last 24 hours." Hgen) as Hrender.
  exists (buildReport dateStr [] [] [] [] []), generated.
  split; [exact Hreport |]. split; [reflexivity |]. split; [exact Hgen |].
  split; [exact Hrender |].
  unfold main. rewrite Hreport, bind_Normal. unfold buildReport.
  change (buildSummary (length []) (length []) (length []) (length []) (length []))
    with "No updates detected in the last 24 hours.".
  rewrite Hrender, bind_Normal. apply saveReport_throws.
Qed.

(** ** The summary of the report *)

(** The summary of an assembled report counts its own collections. *)
Lemma report_of_summary (Date_parse : string → option Z) (env : Env) (report : DailyReport.t) :
  report_of Date_parse env = Normal report →
  DailyReport.summary report
  = buildSummary (length (DailyReport.commits (DailyReport.github report)))
      (length (DailyReport.releases (DailyReport.github report)))
      (length (DailyReport.pullRequests (DailyReport.github report)))
      (length (DailyReport.docs report))
      (length (DailyReport.releaseNotes report)).
Proof.
  unfold report_of.
  destruct (formatDate (Date.of_clock (now_main env))) as [dateStr|e]; [|discriminate].
  rewrite bind_Normal.
  destruct (fetchRecentCommits (now_commits env) (commits_response env)) as [commits|e];
    [|discriminate].
  rewrite bind_Normal. intros [= <-]. reflexivity.
Qed.

(** One item is counted in the singular, more than one in the plural. *)
Lemma counted_singular_plural (n : nat) (word : string) :
  counted 1 word = "1 " +:+ word
  ∧ (1 < n → counted n word = JS.length_toString n +:+ " " +:+ word +:+ "s").
Proof.
  split.
  - unfold counted. cbn [Nat.ltb Nat.leb]. now rewrite append_empty_r.
  - intros Hn. unfold counted. now destruct (Nat.ltb_spec 1 n); [|lia].
Qed.

(** C5: when the fetchers of a run yield one commit and two releases, and no
    pull request, documentation page or release note, the summary of the
    assembled report is [Daily updates: 1 commit, 2 releases.]. *)
Theorem summary_of_one_commit_two_releases (Date_parse : string → option Z)
    (env : Env) (report : DailyReport.t) :
  report_of Date_parse env = Normal report →
  length (DailyReport.commits (DailyReport.github report)) = 1 →
  length (DailyReport.releases (DailyReport.github report)) = 2 →
  DailyReport.pullRequests (DailyReport.github report) = [] →
  DailyReport.docs report = [] →
  DailyReport.releaseNotes report = [] →
  DailyReport.summary report = "Daily updates: 1 commit, 2 releases.".
Proof.
  intros Hreport Hc Hr Hp Hd Hn.
  rewrite (report_of_summary Date_parse env report Hreport), Hc, Hr, Hp, Hd, Hn.
  reflexivity.
Qed.

(** ** The documentation section of the report *)

Lemma fold_docItem (docs : list DocPage.t) (md : string) :
  fold_left (λ md doc, docItem doc md) docs md = md +:+ concat_strings (map docLine docs).
Proof.
  revert md; induction docs as [|doc docs IH]; intros md; cbn [fold_left map concat_strings fold_right].
  - now rewrite append_empty_r.
  - rewrite IH. change (docItem doc md) with (md +:+ docLine doc).
    now rewrite append_assoc.
Qed.

(** C6: the documentation section that the renderer adds to the text [md].
    Without pages there is no section.  With 1 to 20 pages it is the heading,
    a line for each page in order, and an empty line.  With more than 20
    pages it is the heading, a line for each of the first 20 pages in order,
    the note [... and N more pages] where [N] is the number of pages less
    20, and an empty line; with 25 pages the note reads
    [... and 5 more pages]. *)
Theorem docsSection_lists_first_20 (docs : list DocPage.t) (md : string) :
  (docs = [] → docsSection docs md = md)
  ∧ (0 < length docs ≤ 20 →
     docsSection docs md
     = md +:+ docsHeading (length docs) +:+ concat_strings (map docLine docs) +:+ JS.nl)
  ∧ (20 < length docs →
     docsSection docs md
     = md +:+ docsHeading (length docs)
          +:+ concat_strings (map docLine (firstn 20 docs))
          +:+ JS.nl +:+ "*... and " +:+ JS.length_toString (length docs - 20)
          +:+ " more pages*" +:+ JS.nl +:+ JS.nl)
  ∧ (length docs = 25 →
     ∃ shown more : list DocPage.t,
       docs = shown ++ more ∧ length shown = 20
       ∧ docsSection docs md
         = md +:+ docsHeading 25 +:+ concat_strings (map docLine shown)
              +:+ JS.nl +:+ "*... and 5 more pages*" +:+ JS.nl +:+ JS.nl).
Proof.
  assert (Hmany : 20 < length docs →
     docsSection docs md
     = md +:+ docsHeading (length docs)
          +:+ concat_strings (map docLine (firstn 20 docs))
          +:+ JS.nl +:+ "*... and " +:+ JS.length_toString (length docs - 20)
          +:+ " more pages*" +:+ JS.nl +:+ JS.nl).
  { intros Hlen. unfold docsSection, JS.slice0, docsHeading.
    destruct (Nat.ltb_spec 0 (length docs)); [|lia].
    destruct (Nat.ltb_spec 20 (length docs)); [|lia].
    rewrite fold_docItem, !append_assoc. reflexivity. }
  split; [intros ->; reflexivity |]. split; [|split; [exact Hmany |]].
  - intros [Hpos Hle]. unfold docsSection, JS.slice0, docsHeading.
    destruct (Nat.ltb_spec 0 (length docs)); [|lia].
    destruct (Nat.ltb_spec 20 (length docs)); [lia |].
    rewrite firstn_all2 by lia.
    rewrite fold_docItem, !append_assoc. reflexivity.
  - intros Hlen. exists (firstn 20 docs), (skipn 20 docs).
    split; [symmetry; apply firstn_skipn |]. split; [rewrite length_firstn; lia |].
    rewrite Hmany by lia. rewrite Hlen. reflexivity.
Qed.

(** The section stands in the report between the pull requests and the
    release notes. *)
Lemma generateMarkdown_docs_section (Date_parse : string → option Z) (LocalTZA : Z → Z)
    (w : World) (report : DailyReport.t) (text : string) :
  generateMarkdown Date_parse LocalTZA w report = Normal text →
  ∃ before : string,
    text = footer (releaseNotesSection (DailyReport.releaseNotes report)
                     (docsSection (DailyReport.docs report) before)).
Proof.
  unfold generateMarkdown.
  destruct (Date.toISOString (Date.of_clock (clock w))) as [generated|e]; [|discriminate].
  rewrite bind_Normal.
  destruct (commitsSection _ _ _) as [md1|e]; [|discriminate]. rewrite bind_Normal.
  destruct (releasesSection _ _ _) as [md2|e]; [|discriminate]. rewrite bind_Normal.
  destruct (pullRequestsSection _ _ _) as [md3|e]; [|discriminate]. rewrite bind_Normal.
  intros [= <-]. now exists md3.
Qed.

(** ** The renderer reads the clock and nothing else *)

(** C7: the text that the renderer gives for a report depends on the world
    in which it is called through the clock only: two calls on the same
    report at the same reading of the clock give the same text, or fail
    alike, whatever else differs between the two worlds. *)
Theorem generateMarkdown_deterministic (Date_parse : string → option Z)
    (tz1 tz2 : Z → Z) (w1 w2 : World) (report : DailyReport.t) :
  clock w1 = clock w2 →
  generateMarkdown Date_parse tz1 w1 report = generateMarkdown Date_parse tz2 w2 report.
Proof. intros Hclock. unfold generateMarkdown. rewrite Hclock. reflexivity. Qed.

(** ** The title of a documentation page *)

Lemma split_nonempty (sep : ascii) (s : string) : JS.split sep s ≠ [].
Proof.
  destruct s as [|c s]; cbn; [discriminate |].
  destruct (Ascii.eqb c sep); [discriminate |].
  destruct (JS.split sep s); discriminate.
Qed.

Lemma split_without_separator (sep : ascii) (s : string) :
  JS.index_of sep s = None → JS.split sep s = [s].
Proof.
  induction s as [|c s IH]; cbn; [reflexivity |].
  destruct (Ascii.eqb c sep); [discriminate |].
  destruct (JS.index_of sep s); [discriminate |]. intros _. now rewrite IH.
Qed.

Lemma pop_cons (x : string) (l : list string) : l ≠ [] → JS.pop (x :: l) = JS.pop l.
Proof. destruct l; [congruence | reflexivity]. Qed.

(** The last piece of a string is the last piece of what follows any of its
    separators. *)
Lemma pop_split_after (sep : ascii) (p s : string) :
  JS.pop (JS.split sep (p +:+ String sep s)) = JS.pop (JS.split sep s).
Proof.
  induction p as [|c p IH].
  - rewrite append_empty_l. cbn [JS.split]. rewrite Ascii.eqb_refl.
    apply pop_cons, split_nonempty.
  - rewrite append_cons. cbn [JS.split]. destruct (Ascii.eqb c sep).
    + rewrite pop_cons by apply split_nonempty. exact IH.
    + destruct (JS.split sep (p +:+ String sep s)) as [|h [|h' t]] eqn:Hsplit.
      * now apply split_nonempty in Hsplit.
      * exfalso. revert Hsplit. clear. revert h.
        induction p as [|c p IH]; intros h.
        -- rewrite append_empty_l. cbn [JS.split]. rewrite Ascii.eqb_refl.
           intros Hs. injection Hs as Hh Hs. now apply split_nonempty in Hs.
        -- rewrite append_cons. cbn [JS.split]. destruct (Ascii.eqb c sep).
           ++ intros Hs. injection Hs as Hh Hs. now apply split_nonempty in Hs.
           ++ destruct (JS.split sep (p +:+ String sep s)) as [|h0 [|h1 t]] eqn:Hsplit;
                [now apply split_nonempty in Hsplit | | discriminate].
              intros _. now apply (IH h0).
      * rewrite <- IH. reflexivity.
Qed.

(** C10: the title of a documentation page is what follows the last [/] of
    its path.  A path without [/] is its own title; and when nothing follows
    the last [/], the title is the whole path, not the last segment that is
    not empty. *)
Theorem docTitle_last_segment (link : string) :
  (no_slash link → docTitle link = link)
  ∧ (∀ p s : string,
       link = p +:+ "/" +:+ s → no_slash s → s ≠ "" → docTitle link = s)
  ∧ (∀ p : string, link = p +:+ "/" → docTitle link = link).
Proof.
  unfold docTitle, no_slash. split; [|split].
  - intros Hno. rewrite split_without_separator by assumption.
    cbn. now destruct link.
  - intros p s -> Hno Hs. change ("/" +:+ s) with (String "/" s).
    rewrite pop_split_after, split_without_separator by assumption.
    cbn [JS.pop JS.or_value]. now apply or_nonempty.
  - intros p ->. change "/"%string with (String "/" "") at 1.
    rewrite pop_split_after. reflexivity.
Qed.

(** The pages that the fetcher returns have the title and the address of a
    path found in the page. *)
Lemma pushPages_pages (now : nat → Z) (links : list string) (k : nat)
    (results : list DocPage.t) (page : DocPage.t) :
  page ∈ pushPages now k links results →
  page ∈ results
  ∨ ∃ link : string,
      link ∈ links ∧ DocPage.title page = docTitle link
      ∧ DocPage.url page = DOCS_BASE_URL +:+ "/" +:+ link.
Proof.
  revert k results. induction links as [|link links IH]; intros k results; cbn [pushPages].
  - auto.
  - destruct (toISOString_valid (now k)) as [ts Hts]. unfold Date.of_clock. rewrite Hts.
    intros [Hin | (l & Hl & Ht & Hu)]%IH.
    + apply elem_of_app in Hin as [Hin | Hin%list_elem_of_singleton]; [auto |].
      right. exists link. subst page. split; [left | split; reflexivity].
    + right. exists l. split; [now right | auto].
Qed.

(** ** The path of the report *)

Lemma all_from_spec (P : Z → bool) (n : nat) (lo : Z) :
  all_from P lo n = true → ∀ z : Z, (lo ≤ z < lo + Z.of_nat n)%Z → P z = true.
Proof.
  revert lo; induction n as [|n IH]; intros lo Hall z Hz; [lia |].
  cbn [all_from] in Hall. apply andb_true_iff in Hall as [Hlo Hrest].
  destruct (Z.eq_dec z lo) as [-> | Hne]; [assumption |].
  apply (IH (lo + 1)%Z Hrest). lia.
Qed.

Lemma four_digits_year (y : Z) : (1000 ≤ y ≤ 9999)%Z → four_digits y = true.
Proof.
  intros Hy. apply (all_from_spec four_digits (Z.to_nat 9000) 1000).
  - vm_compute. reflexivity.
  - lia.
Qed.

Lemma two_digits_upto_31 (z : Z) : (1 ≤ z ≤ 31)%Z → two_digits z = true.
Proof.
  intros Hz. apply (all_from_spec two_digits (Z.to_nat 31) 1).
  - vm_compute. reflexivity.
  - lia.
Qed.

(** The months of the calendar are 1..12 and its days 1..31. *)
Lemma civil_from_days_range (day : Z) :
  (1 ≤ (Date.civil_from_days day).1.2 ≤ 12 ∧ 1 ≤ (Date.civil_from_days day).2 ≤ 31)%Z.
Proof.
  unfold Date.civil_from_days. cbn [fst snd].
  pose proof (Z.mod_pos_bound (day + 719468) 146097 ltac:(lia)) as Hdoe.
  set (doe := ((day + 719468) mod 146097)%Z) in *.
  set (yoe := ((doe - doe / 1460 + doe / 36524 - doe / 146096) / 365)%Z).
  set (doy := (doe - (365 * yoe + yoe / 4 - yoe / 100))%Z).
  assert (Hdoy : (0 ≤ doy ≤ 365)%Z).
  { subst doy yoe. clearbody doe. Z.div_mod_to_equations. lia. }
  clearbody doy. clear Hdoe.
  set (mp := ((5 * doy + 2) / 153)%Z).
  assert (Hmp : (0 ≤ mp ≤ 11 ∧ 1 ≤ doy - (153 * mp + 2) / 5 + 1 ≤ 31)%Z).
  { subst mp. Z.div_mod_to_equations. lia. }
  clearbody mp. destruct (Z.ltb_spec mp 10); lia.
Qed.

Lemma getMonth_range (LocalTZA : Z → Z) (date : Date.t) (m : Z) :
  Date.getMonth LocalTZA date = Some m → (1 ≤ m + 1 ≤ 12)%Z.
Proof.
  destruct date as [tv|]; [|discriminate]. intros [= <-].
  unfold compose, Date.MonthFromTime.
  pose proof (civil_from_days_range (Date.Day (Date.LocalTime LocalTZA tv))). lia.
Qed.

Lemma getDate_range (LocalTZA : Z → Z) (date : Date.t) (d : Z) :
  Date.getDate LocalTZA date = Some d → (1 ≤ d ≤ 31)%Z.
Proof.
  destruct date as [tv|]; [|discriminate]. intros [= <-].
  unfold compose, Date.DateFromTime.
  pose proof (civil_from_days_range (Date.Day (Date.LocalTime LocalTZA tv))). lia.
Qed.

(** The path is put together from the three parts of the date. *)
Lemma reportPath_parts (LocalTZA : Z → Z) (date : Date.t) :
  reportPath LocalTZA date
  = "daily/" +:+ year (getDateParts LocalTZA date) +:+ "/"
    +:+ month (getDateParts LocalTZA date) +:+ "/"
    +:+ day (getDateParts LocalTZA date) +:+ ".md".
Proof. unfold reportPath. cbv zeta. rewrite !append_assoc. reflexivity. Qed.

(** C8: for a date of a year that is written in four digits (1000 to 9999),
    as every date of the clock is, the path that the writer derives is
    [daily/Y/M/D.md] where [Y] is the year in four digits, [M] the month in
    two digits and [D] the day of the month in two digits; for 2025-03-07 it
    is [daily/2025/03/07.md]. *)
Theorem reportPath_of_date (LocalTZA : Z → Z) (date : Date.t) (y m d : Z) :
  Date.getFullYear LocalTZA date = Some y →
  Date.getMonth LocalTZA date = Some m →
  Date.getDate LocalTZA date = Some d →
  (1000 ≤ y ≤ 9999)%Z →
  dated_path y (m + 1) d (reportPath LocalTZA date)
  ∧ (y = 2025%Z → m = 2%Z → d = 7%Z → reportPath LocalTZA date = "daily/2025/03/07.md").
Proof.
  intros Hy Hm Hd Hrange.
  pose proof (getMonth_range _ _ _ Hm) as Hmr. pose proof (getDate_range _ _ _ Hd) as Hdr.
  rewrite reportPath_parts. unfold getDateParts. cbn [year month day].
  rewrite Hy, Hm, Hd. cbn [fmap option_fmap option_map].
  replace (1 + m)%Z with (m + 1)%Z by lia. split.
  - pose proof (four_digits_year y Hrange) as [HY1 HY2%bool_decide_eq_true]%andb_true_iff.
    pose proof (two_digits_upto_31 (m + 1) ltac:(lia)) as
      [HM1 HM2%bool_decide_eq_true]%andb_true_iff.
    pose proof (two_digits_upto_31 d Hdr) as [HD1 HD2%bool_decide_eq_true]%andb_true_iff.
    apply Nat.eqb_eq in HY1, HM1, HD1.
    exists (JS.Number_toString (Some y)), (JS.padStart (JS.Number_toString (Some (m + 1)%Z)) 2 "0"),
      (JS.padStart (JS.Number_toString (Some d)) 2 "0").
    repeat split; assumption.
  - intros -> -> ->. reflexivity.
Qed.

(** ** The properties on the sample inputs *)

Lemma noon_is_clock_reading : clock_reading Sample.noon.
Proof. unfold clock_reading, Sample.noon, Date.maxTimeValue. lia. Defined.

Lemma fetchRecentPRs_window_witness :
  (toPR Sample.pr_merged
     ∈ fetchRecentPRs Host.Date_parse Sample.noon (Response true 200 (Some Sample.prs)))
  ∧ (toPR Sample.pr_closed
     ∉ fetchRecentPRs Host.Date_parse Sample.noon (Response true 200 (Some Sample.prs)))
  ∧ (toPR Sample.pr_boundary
     ∉ fetchRecentPRs Host.Date_parse Sample.noon (Response true 200 (Some Sample.prs))).
Proof.
  split; [|split].
  - apply (proj1 (fetchRecentPRs_window Host.Date_parse Sample.noon 200 Sample.prs
                    Sample.pr_merged eq_refl noon_is_clock_reading
                    ltac:(repeat constructor))).
    exists "2025-03-07T09:30:00Z", 1741339800000%Z.
    split; [reflexivity |]. split; [vm_compute; reflexivity | unfold Sample.noon; lia].
  - apply (proj1 (proj2 (fetchRecentPRs_window Host.Date_parse Sample.noon 200 Sample.prs
                           Sample.pr_closed eq_refl noon_is_clock_reading
                           ltac:(repeat constructor)))).
    reflexivity.
  - apply (proj2 (proj2 (fetchRecentPRs_window Host.Date_parse Sample.noon 200 Sample.prs
                           Sample.pr_boundary eq_refl noon_is_clock_reading
                           ltac:(repeat constructor)))
             "2025-03-06T12:00:00Z"); [reflexivity | vm_compute; reflexivity].
Defined.

Lemma fetchRecentReleases_window_witness :
  toRelease Sample.release_new
    ∈ fetchRecentReleases Host.Date_parse Sample.noon
        (Response true 200 (Some Sample.releases)).
Proof.
  apply (fetchRecentReleases_window Host.Date_parse Sample.noon 200 Sample.releases
           Sample.release_new eq_refl noon_is_clock_reading ltac:(repeat constructor)).
  exists "2025-03-07T10:00:00Z", 1741341600000%Z.
  split; [reflexivity |]. split; [vm_compute; reflexivity | unfold Sample.noon; lia].
Defined.

Lemma main_when_every_fetcher_fails_witness :
  ∃ (report : DailyReport.t) (generated : string),
    report_of Host.Date_parse Sample.env_down = Normal report
    ∧ DailyReport.summary report = "No updates detected in the last 24 hours."
    ∧ Date.toISOString (Date.of_clock (now_render Sample.env_down)) = Normal generated
    ∧ generateMarkdown Host.Date_parse Host.LocalTZA
        {| clock := now_render Sample.env_down; disk := disk0 Sample.env_down |} report
      = Normal (emptyReportText (DailyReport.date report) generated
                  "No updates detected in the last 24 hours.")
    ∧ main Host.Date_parse Host.LocalTZA Sample.env_down = Throw "ReferenceError".
Proof.
  refine (proj2 (main_when_every_fetcher_fails Host.Date_parse Host.LocalTZA
                   Sample.env_down _ I eq_refl eq_refl I eq_refl)).
  unfold clock_reading, Sample.env_down, Sample.noon, Date.maxTimeValue. cbn [now_commits]. lia.
Defined.

Lemma summary_of_one_commit_two_releases_witness :
  ∃ report : DailyReport.t,
    report_of Host.Date_parse Sample.env_quiet = Normal report
    ∧ DailyReport.summary report = "Daily updates: 1 commit, 2 releases.".
Proof.
  destruct (report_of Host.Date_parse Sample.env_quiet) as [report|e] eqn:Hreport;
    [|vm_compute in Hreport; discriminate Hreport].
  exists report. split; [reflexivity |].
  apply (summary_of_one_commit_two_releases Host.Date_parse Sample.env_quiet report Hreport);
    vm_compute in Hreport; injection Hreport as <-; reflexivity.
Defined.

Lemma docsSection_lists_first_20_witness :
  docsSection Sample.pages25 ""
  = docsHeading 25 +:+ concat_strings (map docLine (firstn 20 Sample.pages25))
    +:+ JS.nl +:+ "*... and 5 more pages*" +:+ JS.nl +:+ JS.nl.
Proof.
  refine (proj1 (proj2 (proj2 (docsSection_lists_first_20 Sample.pages25 ""))) _).
  vm_compute. lia.
Defined.

Lemma generateMarkdown_deterministic_witness :
  generateMarkdown Host.Date_parse Host.LocalTZA
    {| clock := Sample.noon; disk := Sample.no_disk |}
    (buildReport "2025-03-07" [toCommit Sample.commit] [toRelease Sample.release_new]
       [] Sample.pages25 [])
  = generateMarkdown Host.Date_parse (λ _, 3600000%Z)
      {| clock := Sample.noon; disk := Bun_write "notes.txt" "kept" Sample.no_disk |}
      (buildReport "2025-03-07" [toCommit Sample.commit] [toRelease Sample.release_new]
         [] Sample.pages25 []).
Proof. apply generateMarkdown_deterministic. reflexivity. Defined.

Lemma reportPath_of_date_witness :
  dated_path 2025 3 7 (reportPath Host.LocalTZA (Some Sample.noon))
  ∧ reportPath Host.LocalTZA (Some Sample.noon) = "daily/2025/03/07.md".
Proof.
  destruct (reportPath_of_date Host.LocalTZA (Some Sample.noon) 2025 2 7
              ltac:(vm_compute; reflexivity) ltac:(vm_compute; reflexivity)
              ltac:(vm_compute; reflexivity) ltac:(lia)) as [Hpath Hexample].
  split; [exact Hpath | apply Hexample; reflexivity].
Defined.

Lemma docTitle_last_segment_witness :
  docTitle "overview" = "overview"
  ∧ docTitle "en/setup" = "setup"
  ∧ docTitle "en/hooks/" = "en/hooks/".
Proof.
  split; [|split].
  - apply (proj1 (docTitle_last_segment "overview")). reflexivity.
  - apply (proj1 (proj2 (docTitle_last_segment "en/setup")) "en" "setup");
      [reflexivity | reflexivity | discriminate].
  - apply (proj2 (proj2 (docTitle_last_segment "en/hooks/")) "en/hooks"). reflexivity.
Defined.

(** * Further properties *)

(** ** The commit fetcher *)

(** The first piece of a split has no separator, and the string is that
    piece, or that piece, a separator and more. *)
Lemma first_split (sep : ascii) (s : string) :
  JS.index_of sep (JS.first (JS.split sep s)) = None
  ∧ (s = JS.first (JS.split sep s)
     ∨ ∃ rest : string, s = JS.first (JS.split sep s) +:+ String sep rest).
Proof.
  induction s as [|c s [IHno IHs]]; [split; [reflexivity | now left] |].
  cbn [JS.split]. destruct (Ascii.eqb_spec c sep) as [-> | Hne].
  - cbn [JS.first]. split; [reflexivity | right; now exists s].
  - destruct (JS.split sep s) as [|h t] eqn:Hsplit; [now apply split_nonempty in Hsplit |].
    cbn [JS.first] in *. split.
    + cbn [JS.index_of]. apply Ascii.eqb_neq in Hne. rewrite Hne, IHno. reflexivity.
    + destruct IHs as [-> | [rest ->]]; [now left |].
      right. exists rest. now rewrite append_cons.
Qed.

(** X1: the commit that the fetcher returns has the first 7 code units of
    the raw identifier (all of it when shorter) and the first line of the raw
    message: no line feed is in it, and the raw message is that line, or that
    line, a line feed and more.  Author and link are kept. *)
Theorem toCommit_shortens (c : GitHubCommit.t) :
  (∃ rest : string,
     GitHubCommit.sha c = GitHubCommit.sha (toCommit c) +:+ rest
     ∧ String.length (GitHubCommit.sha (toCommit c))
       = Nat.min 7 (String.length (GitHubCommit.sha c)))
  ∧ JS.index_of JS.LF (GitHubCommit.message (GitHubCommit.commit (toCommit c))) = None
  ∧ (GitHubCommit.message (GitHubCommit.commit c)
     = GitHubCommit.message (GitHubCommit.commit (toCommit c))
     ∨ ∃ rest : string,
         GitHubCommit.message (GitHubCommit.commit c)
         = GitHubCommit.message (GitHubCommit.commit (toCommit c)) +:+ JS.nl +:+ rest)
  ∧ GitHubCommit.author (GitHubCommit.commit (toCommit c))
    = GitHubCommit.author (GitHubCommit.commit c)
  ∧ GitHubCommit.html_url (toCommit c) = GitHubCommit.html_url c.
Proof.
  unfold toCommit.
  cbn [GitHubCommit.sha GitHubCommit.commit GitHubCommit.message GitHubCommit.author
       GitHubCommit.html_url].
  split; [|split; [|split; [|split]]].
  - rewrite substring_from_0. exists (JS.drop 7 (GitHubCommit.sha c)).
    split; [symmetry; apply take_drop | apply length_take].
  - apply first_split.
  - apply first_split.
  - now destruct (GitHubCommit.author (GitHubCommit.commit c)).
  - reflexivity.
Qed.

Lemma toISOString_throws (d : Date.t) (e : string) :
  Date.toISOString d = Throw e → d = None ∧ e = "RangeError: Invalid Date".
Proof. destruct d as [tv|]; [discriminate | now intros [= <-]]. Qed.

(** The commits of a response, as the fetcher maps them. *)
Lemma fetchRecentCommits_cases (now : Z) (response : FetchOutcome (list GitHubCommit.t)) :
  ((Date.maxTimeValue < Z.abs (now - 86400000))%Z →
   fetchRecentCommits now response = Throw "RangeError: Invalid Date")
  ∧ ((Z.abs (now - 86400000) ≤ Date.maxTimeValue)%Z →
     fetchRecentCommits now response
     = Normal (fetched_commits response)).
Proof.
  unfold fetchRecentCommits, oneDayAgo, Date.of_number, Date.TimeClip.
  replace (now - 24 * 60 * 60 * 1000)%Z with (now - 86400000)%Z by lia.
  split; intros Hnow.
  - destruct (Z.leb_spec (Z.abs (now - 86400000)) Date.maxTimeValue); [lia | reflexivity].
  - destruct (Z.leb_spec (Z.abs (now - 86400000)) Date.maxTimeValue); [|lia].
    destruct (toISOString_valid (now - 86400000)) as [since ->]. rewrite bind_Normal.
    now destruct response as [|[] status [commits|]].
Qed.

(** X2: the commit fetcher raises exactly when the start of its window is
    not a time value, and then whatever the outcome of the request: the
    address of the request is computed before the [try] block.  Otherwise it
    returns the mapped commits of a successful response, one for each raw
    commit, and nothing in every other case. *)
Theorem fetchRecentCommits_outcome (now : Z) (response : FetchOutcome (list GitHubCommit.t)) :
  ((Date.maxTimeValue < Z.abs (now - 86400000))%Z →
   fetchRecentCommits now response = Throw "RangeError: Invalid Date")
  ∧ ((Z.abs (now - 86400000) ≤ Date.maxTimeValue)%Z →
     fetchRecentCommits now response = Normal (fetched_commits response)
     ∧ ∀ (status : Z) (commits : list GitHubCommit.t),
         response = Response true status (Some commits) →
         ∃ l : list GitHubCommit.t,
           fetchRecentCommits now response = Normal l ∧ length l = length commits).
Proof.
  destruct (fetchRecentCommits_cases now response) as [Hbad Hgood].
  split; [exact Hbad |]. intros Hnow. split; [now apply Hgood |].
  intros status commits ->. rewrite (Hgood Hnow). eexists. split; [reflexivity |].
  apply length_map.
Qed.

Lemma fetchRecentCommits_outcome_witness :
  fetchRecentCommits (-8640000000000000) (NetworkError) = Throw "RangeError: Invalid Date"
  ∧ ∃ l : list GitHubCommit.t,
      fetchRecentCommits Sample.noon (Response true 200 (Some [Sample.commit; Sample.commit]))
      = Normal l ∧ length l = 2.
Proof.
  split.
  - apply (proj1 (fetchRecentCommits_outcome (-8640000000000000) NetworkError)).
    unfold Date.maxTimeValue. lia.
  - apply (proj2 (proj2 (fetchRecentCommits_outcome Sample.noon
                           (Response true 200 (Some [Sample.commit; Sample.commit])))
                    ltac:(unfold Date.maxTimeValue, Sample.noon; lia))
             200%Z [Sample.commit; Sample.commit] eq_refl).
Defined.

(** ** When the renderer fails *)

Lemma mret_Normal {A : Type} (a : A) : mret a = Normal a.
Proof. reflexivity. Qed.

(** A loop whose body adds text, or throws on an entry that is not [ok],
    adds text when every entry is [ok] and throws otherwise. *)
Lemma for_of_outcome {A : Type} (ok : A → bool) (body : A → string → Completion string)
    (e : string) (xs : list A) (md : string) :
  (∀ (x : A) (md : string), ok x = true → ∃ added : string, body x md = Normal (md +:+ added)) →
  (∀ (x : A) (md : string), ok x = false → body x md = Throw e) →
  if forallb ok xs then ∃ added : string, for_of xs body md = Normal (md +:+ added)
  else for_of xs body md = Throw e.
Proof.
  intros Hok Hbad. revert md; induction xs as [|x xs IH]; intros md; cbn [forallb for_of].
  - exists EmptyString. now rewrite append_empty_r.
  - destruct (ok x) eqn:Hx; cbn [andb].
    + destruct (Hok x md Hx) as [added ->]. rewrite bind_Normal.
      specialize (IH (md +:+ added)). destruct (forallb ok xs); [|exact IH].
      destruct IH as [added' ->]. exists (added +:+ added'). now rewrite append_assoc.
    + now rewrite (Hbad x md Hx).
Qed.

Lemma item_outcome (d : Date.t) (md before : string) (after : string → string) :
  (is_Some d →
   ∃ added : string,
     (iso ← Date.toISOString d; mret ((md +:+ before) +:+ after iso)) = Normal (md +:+ added))
  ∧ (d = None →
     (iso ← Date.toISOString d; mret ((md +:+ before) +:+ after iso))
     = Throw "RangeError: Invalid Date").
Proof.
  split.
  - intros [tv ->]. destruct (toISOString_valid tv) as [iso ->]. rewrite bind_Normal.
    exists (before +:+ after iso). now rewrite mret_Normal, append_assoc.
  - intros ->. reflexivity.
Qed.

Lemma bool_decide_is_Some_false {A : Type} (o : option A) :
  bool_decide (is_Some o) = false → o = None.
Proof.
  intros H. apply bool_decide_eq_false in H. destruct o; [|reflexivity].
  exfalso. apply H. eauto.
Qed.

Section RenderOutcome.
Variable Date_parse : string → option Z.

Lemma commitItem_outcome (c : GitHubCommit.t) (md : string) :
  (commit_date_ok Date_parse c = true →
   ∃ added : string, commitItem Date_parse c md = Normal (md +:+ added))
  ∧ (commit_date_ok Date_parse c = false →
     commitItem Date_parse c md = Throw "RangeError: Invalid Date").
Proof.
  unfold commitItem, commit_date_ok. split.
  - intros Hc%bool_decide_eq_true.
    exact (proj1 (item_outcome _ md _ _) Hc).
  - intros Hc%bool_decide_is_Some_false.
    exact (proj2 (item_outcome _ md _ _) Hc).
Qed.

Lemma releaseItem_outcome (r : GitHubRelease.t) (md : string) :
  (release_date_ok Date_parse r = true →
   ∃ added : string, releaseItem Date_parse r md = Normal (md +:+ added))
  ∧ (release_date_ok Date_parse r = false →
     releaseItem Date_parse r md = Throw "RangeError: Invalid Date").
Proof.
  unfold releaseItem, release_date_ok. rewrite append_assoc. split.
  - intros Hr%bool_decide_eq_true.
    exact (proj1 (item_outcome _ md _ _) Hr).
  - intros Hr%bool_decide_is_Some_false.
    exact (proj2 (item_outcome _ md _ _) Hr).
Qed.

Lemma prItem_outcome (pr : GitHubPR.t) (md : string) :
  (pr_date_ok Date_parse pr = true →
   ∃ added : string, prItem Date_parse pr md = Normal (md +:+ added))
  ∧ (pr_date_ok Date_parse pr = false →
     prItem Date_parse pr md = Throw "RangeError: Invalid Date").
Proof.
  unfold prItem, pr_date_ok. split.
  - intros Hp%bool_decide_eq_true.
    exact (proj1 (item_outcome _ md _ _) Hp).
  - intros Hp%bool_decide_is_Some_false.
    exact (proj2 (item_outcome _ md _ _) Hp).
Qed.

(** A section of the report with a loop: the heading, the loop and an empty
    line, or a fixed sentence when there is no entry. *)
Lemma section_outcome {A : Type} (ok : A → bool) (body : A → string → Completion string)
    (xs : list A) (md heading none : string) :
  (∀ (x : A) (md : string),
     (ok x = true → ∃ added : string, body x md = Normal (md +:+ added))
     ∧ (ok x = false → body x md = Throw "RangeError: Invalid Date")) →
  let section :=
    if (0 <? length xs)%nat then
      md' ← for_of xs body (md +:+ heading); mret (md' +:+ JS.nl)
    else mret (md +:+ none) in
  if forallb ok xs then ∃ added : string, section = Normal (md +:+ added)
  else section = Throw "RangeError: Invalid Date".
Proof.
  intros Hbody section. subst section. destruct xs as [|x xs]; [cbn; eauto |].
  change (0 <? length (x :: xs))%nat with true. cbv iota.
  pose proof (for_of_outcome ok body "RangeError: Invalid Date" (x :: xs) (md +:+ heading)
                (λ x md, proj1 (Hbody x md)) (λ x md, proj2 (Hbody x md))) as Hloop.
  destruct (forallb ok (x :: xs)).
  - destruct Hloop as [added ->]. rewrite bind_Normal, mret_Normal.
    eexists. rewrite !append_assoc. reflexivity.
  - now rewrite Hloop.
Qed.

Lemma commitsSection_outcome (commits : list GitHubCommit.t) (md : string) :
  if forallb (commit_date_ok Date_parse) commits
  then ∃ added : string, commitsSection Date_parse commits md = Normal (md +:+ added)
  else commitsSection Date_parse commits md = Throw "RangeError: Invalid Date".
Proof. apply (section_outcome _ _ commits md _ _ commitItem_outcome). Qed.

Lemma releasesSection_outcome (releases : list GitHubRelease.t) (md : string) :
  if forallb (release_date_ok Date_parse) releases
  then ∃ added : string, releasesSection Date_parse releases md = Normal (md +:+ added)
  else releasesSection Date_parse releases md = Throw "RangeError: Invalid Date".
Proof. apply (section_outcome _ _ releases md _ _ releaseItem_outcome). Qed.

Lemma pullRequestsSection_outcome (prs : list GitHubPR.t) (md : string) :
  if forallb (pr_date_ok Date_parse) prs
  then ∃ added : string, pullRequestsSection Date_parse prs md = Normal (md +:+ added)
  else pullRequestsSection Date_parse prs md = Throw "RangeError: Invalid Date".
Proof. apply (section_outcome _ _ prs md _ _ prItem_outcome). Qed.

End RenderOutcome.

Lemma fold_noteItem (notes : list string) (md : string) :
  fold_left (λ md note, noteItem note md) notes md
  = md +:+ concat_strings (map noteLine notes).
Proof.
  revert md; induction notes as [|note notes IH]; intros md;
    cbn [fold_left map concat_strings fold_right].
  - now rewrite append_empty_r.
  - rewrite IH. change (noteItem note md) with (md +:+ noteLine note).
    now rewrite append_assoc.
Qed.

(** A text that is [md] and more, once the brackets are moved to the
    right. *)
Ltac appended :=
  match goal with
  | |- ∃ added : string, ?text = _ =>
      let t := fresh "t" in
      let Ht := fresh "Ht" in
      remember text as t eqn:Ht; rewrite !append_assoc in Ht; subst t;
      eexists; reflexivity
  end.

Lemma docsSection_appends (docs : list DocPage.t) (md : string) :
  ∃ added : string, docsSection docs md = md +:+ added.
Proof.
  unfold docsSection. destruct (0 <? length docs)%nat;
    [|exists EmptyString; now rewrite append_empty_r].
  rewrite fold_docItem. destruct (20 <? length docs)%nat; appended.
Qed.

Lemma releaseNotesSection_appends (notes : list string) (md : string) :
  ∃ added : string, releaseNotesSection notes md = md +:+ added.
Proof.
  unfold releaseNotesSection. destruct (0 <? length notes)%nat;
    [|exists EmptyString; now rewrite append_empty_r].
  rewrite fold_noteItem. destruct (10 <? length notes)%nat; appended.
Qed.

Lemma footer_appends (md : string) : footer md = md +:+ footerText.
Proof. unfold footerText, footer. cbv zeta. rewrite !append_assoc. reflexivity. Qed.

(** The renderer, case by case. *)
Lemma generateMarkdown_outcome (Date_parse : string → option Z) (LocalTZA : Z → Z)
    (w : World) (report : DailyReport.t) :
  if forallb (commit_date_ok Date_parse) (DailyReport.commits (DailyReport.github report))
     && forallb (release_date_ok Date_parse) (DailyReport.releases (DailyReport.github report))
     && forallb (pr_date_ok Date_parse) (DailyReport.pullRequests (DailyReport.github report))
  then ∃ generated body : string,
         Date.toISOString (Date.of_clock (clock w)) = Normal generated
         ∧ generateMarkdown Date_parse LocalTZA w report
           = Normal (reportHeading (DailyReport.date report) generated
                       (DailyReport.summary report) +:+ body +:+ footerText)
  else generateMarkdown Date_parse LocalTZA w report = Throw "RangeError: Invalid Date".
Proof.
  unfold generateMarkdown.
  destruct (toISOString_valid (clock w)) as [generated Hgen].
  unfold Date.of_clock. rewrite Hgen, bind_Normal.
  set (md0 := (((_ +:+ _) +:+ _) +:+ _) +:+ _).
  pose proof (commitsSection_outcome Date_parse
                (DailyReport.commits (DailyReport.github report)) md0) as H1.
  destruct (forallb (commit_date_ok Date_parse) _); [|now rewrite H1].
  destruct H1 as [a1 ->]. rewrite bind_Normal.
  pose proof (releasesSection_outcome Date_parse
                (DailyReport.releases (DailyReport.github report)) (md0 +:+ a1)) as H2.
  destruct (forallb (release_date_ok Date_parse) _); [|now rewrite H2].
  destruct H2 as [a2 ->]. rewrite bind_Normal.
  pose proof (pullRequestsSection_outcome Date_parse
                (DailyReport.pullRequests (DailyReport.github report))
                ((md0 +:+ a1) +:+ a2)) as H3.
  destruct (forallb (pr_date_ok Date_parse) _); [|now rewrite H3].
  destruct H3 as [a3 ->]. rewrite bind_Normal. unfold mret, Completion_ret.
  destruct (docsSection_appends (DailyReport.docs report) (((md0 +:+ a1) +:+ a2) +:+ a3))
    as [a4 ->].
  destruct (releaseNotesSection_appends (DailyReport.releaseNotes report)
              ((((md0 +:+ a1) +:+ a2) +:+ a3) +:+ a4)) as [a5 ->].
  rewrite footer_appends. cbn [andb].
  exists generated, (a1 +:+ a2 +:+ a3 +:+ a4 +:+ a5). split; [reflexivity |].
  subst md0. unfold reportHeading. rewrite !append_assoc. reflexivity.
Qed.

Lemma forallb_elem_of {A : Type} (ok : A → bool) (xs : list A) :
  forallb ok xs = true ↔ ∀ x : A, x ∈ xs → ok x = true.
Proof.
  rewrite forallb_forall. split; intros H x Hx; apply H; now apply list_elem_of_In.
Qed.

(** X3: the renderer gives a text exactly when every date it has to write is
    valid: the author date of every commit, the publish timestamp of every
    release and the merge timestamp of every pull request.  Otherwise it
    raises the [RangeError] of [toISOString], and it raises nothing else. *)
Theorem generateMarkdown_succeeds_iff (Date_parse : string → option Z) (LocalTZA : Z → Z)
    (w : World) (report : DailyReport.t) :
  ((∃ text : string, generateMarkdown Date_parse LocalTZA w report = Normal text)
   ↔ (∀ c : GitHubCommit.t,
        c ∈ DailyReport.commits (DailyReport.github report) →
        is_Some (Date_parse (GitHubCommit.date (GitHubCommit.author (GitHubCommit.commit c)))))
     ∧ (∀ r : GitHubRelease.t,
          r ∈ DailyReport.releases (DailyReport.github report) →
          is_Some (Date_new Date_parse (GitHubRelease.published_at r)))
     ∧ (∀ pr : GitHubPR.t,
          pr ∈ DailyReport.pullRequests (DailyReport.github report) →
          is_Some (Date_new Date_parse (GitHubPR.merged_at pr))))
  ∧ (∀ e : string,
       generateMarkdown Date_parse LocalTZA w report = Throw e →
       e = "RangeError: Invalid Date").
Proof.
  pose proof (generateMarkdown_outcome Date_parse LocalTZA w report) as Hout.
  destruct (forallb (commit_date_ok Date_parse) _ && forallb (release_date_ok Date_parse) _
            && forallb (pr_date_ok Date_parse) _) eqn:Hok.
  - destruct Hout as (generated & body & _ & ->). split; [|discriminate].
    split; [intros _ | eauto].
    apply andb_true_iff in Hok as [[Hc Hr]%andb_true_iff Hp].
    rewrite forallb_elem_of in Hc. rewrite forallb_elem_of in Hr.
    rewrite forallb_elem_of in Hp.
    repeat split; intros x Hx; [apply Hc in Hx | apply Hr in Hx | apply Hp in Hx];
      now apply bool_decide_eq_true in Hx.
  - rewrite Hout. split; [|now intros e [= <-]]. split; [intros [text [=]] |].
    intros (Hc & Hr & Hp). exfalso.
    assert (forallb (commit_date_ok Date_parse)
              (DailyReport.commits (DailyReport.github report)) = true) as H1
      by (apply forallb_elem_of; intros x Hx; apply bool_decide_eq_true; auto).
    assert (forallb (release_date_ok Date_parse)
              (DailyReport.releases (DailyReport.github report)) = true) as H2
      by (apply forallb_elem_of; intros x Hx; apply bool_decide_eq_true; auto).
    assert (forallb (pr_date_ok Date_parse)
              (DailyReport.pullRequests (DailyReport.github report)) = true) as H3
      by (apply forallb_elem_of; intros x Hx; apply bool_decide_eq_true; auto).
    rewrite H1, H2, H3 in Hok. discriminate Hok.
Qed.

(** X4: every text of the renderer starts with the title, the time of
    generation and the summary, and ends with the footer. *)
Theorem generateMarkdown_frame (Date_parse : string → option Z) (LocalTZA : Z → Z)
    (w : World) (report : DailyReport.t) (text : string) :
  generateMarkdown Date_parse LocalTZA w report = Normal text →
  ∃ generated body : string,
    Date.toISOString (Date.of_clock (clock w)) = Normal generated
    ∧ text = reportHeading (DailyReport.date report) generated (DailyReport.summary report)
             +:+ body +:+ footerText.
Proof.
  pose proof (generateMarkdown_outcome Date_parse LocalTZA w report) as Hout.
  destruct (_ && _); [|rewrite Hout; discriminate].
  destruct Hout as (generated & body & Hgen & ->). intros [= <-]. eauto.
Qed.

Lemma generateMarkdown_frame_witness :
  ∃ generated body : string,
    Date.toISOString (Date.of_clock Sample.noon) = Normal generated
    ∧ emptyReportText "2025-03-07" "2025-03-07T12:00:00.000Z" "Nothing."
      = reportHeading "2025-03-07" generated "Nothing." +:+ body +:+ footerText.
Proof.
  exact (generateMarkdown_frame Host.Date_parse Host.LocalTZA
           {| clock := Sample.noon; disk := Sample.no_disk |}
           {| DailyReport.date := "2025-03-07";
              DailyReport.summary := "Nothing.";
              DailyReport.github :=
                {| DailyReport.commits := []; DailyReport.releases := [];
                   DailyReport.pullRequests := [] |};
              DailyReport.docs := [];
              DailyReport.releaseNotes := [] |}
           (emptyReportText "2025-03-07" "2025-03-07T12:00:00.000Z" "Nothing.")
           ltac:(vm_compute; reflexivity)).
Defined.

(** ** What the fetchers return can be rendered *)

Lemma gt_is_Some (a b : Date.t) : Date.gt a b = true → is_Some a.
Proof. destruct a; [eauto | discriminate]. Qed.

Lemma fetchRecentReleases_dates_ok (Date_parse : string → option Z) (now : Z)
    (response : FetchOutcome (list RawRelease.t)) :
  forallb (release_date_ok Date_parse) (fetchRecentReleases Date_parse now response) = true.
Proof.
  apply forallb_elem_of. intros out Hout.
  destruct response as [|[] status [releases|]]; cbn [fetchRecentReleases] in Hout;
    try (now apply elem_of_nil in Hout).
  apply elem_of_filter_map in Hout as (r & _ & Hkeep & <-).
  apply bool_decide_eq_true. cbn [toRelease GitHubRelease.published_at].
  apply andb_true_iff in Hkeep as [_ Hgt]. now apply gt_is_Some in Hgt.
Qed.

Lemma fetchRecentPRs_dates_ok (Date_parse : string → option Z) (now : Z)
    (response : FetchOutcome (list GitHubPR.t)) :
  forallb (pr_date_ok Date_parse) (fetchRecentPRs Date_parse now response) = true.
Proof.
  apply forallb_elem_of. intros out Hout.
  destruct response as [|[] status [prs|]]; cbn [fetchRecentPRs] in Hout;
    try (now apply elem_of_nil in Hout).
  apply elem_of_filter_map in Hout as (pr & _ & Hkeep & <-).
  apply bool_decide_eq_true. cbn [toPR GitHubPR.merged_at].
  apply andb_true_iff in Hkeep as [_ Hgt]. now apply gt_is_Some in Hgt.
Qed.

(** X5: whatever the response, every release and every pull request that a
    fetcher returns carries a timestamp that is a non-empty string and a
    valid date; so the two sections of the report are rendered from the
    output of the fetchers without an error. *)
Theorem fetched_entries_render (Date_parse : string → option Z) (now : Z)
    (releases : FetchOutcome (list RawRelease.t)) (prs : FetchOutcome (list GitHubPR.t))
    (md : string) :
  (∀ r : GitHubRelease.t,
     r ∈ fetchRecentReleases Date_parse now releases →
     ∃ (s : string) (t : Z),
       GitHubRelease.published_at r = JS.JSStr s ∧ s ≠ "" ∧ Date_parse s = Some t)
  ∧ (∀ pr : GitHubPR.t,
       pr ∈ fetchRecentPRs Date_parse now prs →
       ∃ (s : string) (t : Z),
         GitHubPR.merged_at pr = JS.JSStr s ∧ s ≠ "" ∧ Date_parse s = Some t)
  ∧ (∃ added : string,
       releasesSection Date_parse (fetchRecentReleases Date_parse now releases) md
       = Normal (md +:+ added))
  ∧ (∃ added : string,
       pullRequestsSection Date_parse (fetchRecentPRs Date_parse now prs) md
       = Normal (md +:+ added)).
Proof.
  split; [|split; [|split]].
  - intros out Hout.
    destruct releases as [|[] status [l|]]; cbn [fetchRecentReleases] in Hout;
      try (now apply elem_of_nil in Hout).
    apply elem_of_filter_map in Hout as (r & _ & Hkeep & <-).
    cbn [toRelease GitHubRelease.published_at].
    apply andb_true_iff in Hkeep as [Htruthy [t Ht]%gt_is_Some].
    destruct (RawRelease.published_at r) as [| |[|c s]]; try discriminate.
    exists (String c s), t. split; [reflexivity |]. split; [discriminate | exact Ht].
  - intros out Hout.
    destruct prs as [|[] status [l|]]; cbn [fetchRecentPRs] in Hout;
      try (now apply elem_of_nil in Hout).
    apply elem_of_filter_map in Hout as (pr & _ & Hkeep & <-).
    cbn [toPR GitHubPR.merged_at].
    apply andb_true_iff in Hkeep as [Htruthy [t Ht]%gt_is_Some].
    destruct (GitHubPR.merged_at pr) as [| |[|c s]]; try discriminate.
    exists (String c s), t. split; [reflexivity |]. split; [discriminate | exact Ht].
  - pose proof (releasesSection_outcome Date_parse
                  (fetchRecentReleases Date_parse now releases) md) as H.
    now rewrite fetchRecentReleases_dates_ok in H.
  - pose proof (pullRequestsSection_outcome Date_parse
                  (fetchRecentPRs Date_parse now prs) md) as H.
    now rewrite fetchRecentPRs_dates_ok in H.
Qed.

Lemma generateMarkdown_succeeds_iff_witness :
  ¬ ∃ text : string,
      generateMarkdown Host.Date_parse Host.LocalTZA
        {| clock := Sample.noon; disk := Sample.no_disk |}
        (buildReport "2025-03-07"
           [ {| GitHubCommit.sha := "0123456";
                GitHubCommit.commit :=
                  {| GitHubCommit.message := "Undated";
                     GitHubCommit.author :=
                       {| GitHubCommit.name := "Ann"; GitHubCommit.date := "yesterday" |} |};
                GitHubCommit.html_url := "https://github.com/anthropics/claude-code/commit/0123456" |} ]
           [] [] [] [])
      = Normal text.
Proof.
  intros Hsome.
  apply (proj1 (generateMarkdown_succeeds_iff Host.Date_parse Host.LocalTZA _ _)) in Hsome.
  destruct Hsome as [Hcommits _].
  destruct (Hcommits _ ltac:(constructor)) as [t Ht]. vm_compute in Ht. discriminate Ht.
Defined.

(** ** When a run fails *)

Lemma report_of_cases (Date_parse : string → option Z) (env : Env) :
  ((Date.maxTimeValue < Z.abs (now_commits env - 86400000))%Z →
   report_of Date_parse env = Throw "RangeError: Invalid Date")
  ∧ ((Z.abs (now_commits env - 86400000) ≤ Date.maxTimeValue)%Z →
     ∃ dateStr : string,
       report_of Date_parse env
       = Normal (buildReport dateStr (fetched_commits (commits_response env))
                   (fetchRecentReleases Date_parse (now_releases env) (releases_response env))
                   (fetchRecentPRs Date_parse (now_prs env) (prs_response env))
                   (checkDocumentationUpdates (now_docs env) (docs_response env))
                   (checkReleaseNotes (notes_response env)))).
Proof.
  unfold report_of, formatDate, Date.of_clock.
  destruct (toISOString_valid (now_main env)) as [iso ->]. rewrite !bind_Normal.
  destruct (fetchRecentCommits_cases (now_commits env) (commits_response env)) as [Hbad Hgood].
  split; intros Hnow.
  - now rewrite (Hbad Hnow).
  - rewrite (Hgood Hnow), bind_Normal. eexists. reflexivity.
Qed.

Lemma fetched_commits_dates_ok (Date_parse : string → option Z)
    (response : FetchOutcome (list GitHubCommit.t)) :
  forallb (commit_date_ok Date_parse) (fetched_commits response) = true
  ↔ ∀ (status : Z) (commits : list GitHubCommit.t) (c : GitHubCommit.t),
      response = Response true status (Some commits) → c ∈ commits →
      is_Some (Date_parse (GitHubCommit.date (GitHubCommit.author (GitHubCommit.commit c)))).
Proof.
  rewrite forallb_elem_of. split.
  - intros H status commits c -> Hc. cbn [fetched_commits] in H.
    specialize (H (toCommit c)). apply bool_decide_eq_true in H; [exact H |].
    apply list_elem_of_In, in_map, list_elem_of_In, Hc.
  - intros H out Hout. destruct response as [|[] status [commits|]];
      cbn [fetched_commits] in Hout; try (now apply elem_of_nil in Hout).
    apply list_elem_of_In, in_map_iff in Hout as (c & <- & Hc%list_elem_of_In).
    apply bool_decide_eq_true. exact (H status commits c eq_refl Hc).
Qed.

(** X6: no run ends normally, and none writes a report.  A run gets as far
    as the writer when the commit fetcher can write the start of its window
    and every commit of a successful response has an author date that the
    engine can parse, and then fails there with the [ReferenceError] of [$];
    otherwise it fails before, with the [RangeError] of [toISOString].  The
    other four fetchers, whatever they meet, make no difference. *)
Theorem main_always_fails (Date_parse : string → option Z) (LocalTZA : Z → Z) (env : Env) :
  (reaches_writer Date_parse env → main Date_parse LocalTZA env = Throw "ReferenceError")
  ∧ (¬ reaches_writer Date_parse env →
     main Date_parse LocalTZA env = Throw "RangeError: Invalid Date")
  ∧ ∀ out : string * Disk, main Date_parse LocalTZA env ≠ Normal out.
Proof.
  assert (Hcases : (reaches_writer Date_parse env
                    ∧ main Date_parse LocalTZA env = Throw "ReferenceError")
                   ∨ (¬ reaches_writer Date_parse env
                      ∧ main Date_parse LocalTZA env = Throw "RangeError: Invalid Date")).
  { unfold reaches_writer. rewrite <- fetched_commits_dates_ok. unfold main.
    destruct (report_of_cases Date_parse env) as [Hbad Hgood].
    destruct (Z_le_gt_dec (Z.abs (now_commits env - 86400000)) Date.maxTimeValue)
      as [Hle | Hgt].
    - destruct (Hgood Hle) as [dateStr ->]. rewrite bind_Normal.
      pose proof (generateMarkdown_outcome Date_parse LocalTZA
                    {| clock := now_render env; disk := disk0 env |}
                    (buildReport dateStr (fetched_commits (commits_response env))
                       (fetchRecentReleases Date_parse (now_releases env)
                          (releases_response env))
                       (fetchRecentPRs Date_parse (now_prs env) (prs_response env))
                       (checkDocumentationUpdates (now_docs env) (docs_response env))
                       (checkReleaseNotes (notes_response env)))) as Hout.
      cbn [buildReport DailyReport.github DailyReport.commits DailyReport.releases
           DailyReport.pullRequests] in Hout.
      rewrite fetchRecentReleases_dates_ok, fetchRecentPRs_dates_ok, !andb_true_r in Hout.
      destruct (forallb (commit_date_ok Date_parse) _).
      + destruct Hout as (generated & body & _ & ->). rewrite bind_Normal. left.
        split; [auto | apply saveReport_throws].
      + rewrite Hout. right. split; [intros [_ [=]] | reflexivity].
    - rewrite (Hbad ltac:(lia)). right. split; [intros [Hle _]; lia | reflexivity]. }
  split; [|split].
  - intros Hok. destruct Hcases as [[_ H] | [Hnot _]]; [exact H | contradiction].
  - intros Hnot. destruct Hcases as [[Hok _] | [_ H]]; [contradiction | exact H].
  - intros out. destruct Hcases as [[_ ->] | [_ ->]]; discriminate.
Qed.

Lemma main_always_fails_witness :
  main Host.Date_parse Host.LocalTZA Sample.env_quiet = Throw "ReferenceError".
Proof.
  apply (proj1 (main_always_fails Host.Date_parse Host.LocalTZA Sample.env_quiet)). split.
  - vm_compute. discriminate.
  - intros status commits c [= _ <-] Hc.
    apply list_elem_of_singleton in Hc as ->. vm_compute. eauto.
Defined.

(** ** The documentation fetcher *)

Lemma append_inj_l (a b c : string) : a +:+ b = a +:+ c → b = c.
Proof.
  induction a as [|x a IH]; [auto |]. rewrite !append_cons. intros [= H]. auto.
Qed.

Lemma strip_prefix_Some (p s rest : string) :
  JS.strip_prefix p s = Some rest → s = p +:+ rest.
Proof.
  revert s; induction p as [|a p IH]; intros s; cbn [JS.strip_prefix].
  - now intros [= ->].
  - destruct s as [|b s]; [discriminate |].
    destruct (Ascii.eqb_spec a b) as [-> | _]; [|discriminate].
    intros H%IH. rewrite append_cons. now subst s.
Qed.

Lemma strip_prefix_append (p s : string) : JS.strip_prefix p (p +:+ s) = Some s.
Proof.
  induction p as [|a p IH]; [reflexivity |].
  rewrite append_cons. cbn [JS.strip_prefix]. now rewrite Ascii.eqb_refl.
Qed.

Lemma span_not_spec (stop : ascii) (s p q : string) :
  JS.span_not stop s = (p, q) →
  s = p +:+ q ∧ JS.index_of stop p = None ∧ (q = "" ∨ ∃ r : string, q = String stop r).
Proof.
  revert p q; induction s as [|c s IH]; intros p q; cbn [JS.span_not].
  - intros [= <- <-]. auto.
  - destruct (Ascii.eqb_spec c stop) as [-> | Hne].
    + intros [= <- <-]. split; [reflexivity |]. split; [reflexivity | eauto].
    + destruct (JS.span_not stop s) as [p' q'] eqn:Hspan. intros [= <- <-].
      destruct (IH p' q' eq_refl) as (-> & Hno & Hq). rewrite append_cons.
      split; [reflexivity |]. split; [|exact Hq].
      cbn [JS.index_of]. apply Ascii.eqb_neq in Hne. now rewrite Hne, Hno.
Qed.

Lemma span_not_append (stop : ascii) (p r : string) :
  JS.index_of stop p = None → JS.span_not stop (p +:+ String stop r) = (p, String stop r).
Proof.
  induction p as [|c p IH]; intros Hno.
  - rewrite append_empty_l. cbn [JS.span_not]. now rewrite Ascii.eqb_refl.
  - rewrite append_cons. cbn [JS.span_not JS.index_of] in *.
    destruct (Ascii.eqb c stop); [discriminate |].
    destruct (JS.index_of stop p); [discriminate |]. now rewrite IH.
Qed.

(** What the link expression matches at the start of a string. *)
Lemma match_doc_link_Some (s link : string) (len : nat) :
  JS.match_doc_link s = Some (link, len) →
  link ≠ "" ∧ JS.index_of JS.dquote link = None
  ∧ len = String.length (docAnchor link)
  ∧ ∃ after : string, s = docAnchor link +:+ after.
Proof.
  unfold JS.match_doc_link.
  destruct (JS.strip_prefix _ s) as [rest|] eqn:Hprefix; [|discriminate].
  apply strip_prefix_Some in Hprefix.
  destruct (JS.span_not JS.dquote rest) as [p q] eqn:Hspan.
  destruct (span_not_spec _ _ _ _ Hspan) as (-> & Hno & Hq).
  destruct p as [|c p]; [discriminate |]. destruct q as [|d q]; [discriminate |].
  destruct Hq as [[=] | [r [= -> ->]]]. intros [= <- <-].
  split; [discriminate |]. split; [exact Hno |]. split.
  - unfold docAnchor. rewrite !length_append. cbn [String.length]. lia.
  - exists r. rewrite Hprefix. unfold docAnchor. rewrite !append_assoc. reflexivity.
Qed.

Lemma match_doc_link_anchor (link after : string) :
  link ≠ "" → JS.index_of JS.dquote link = None →
  JS.match_doc_link (docAnchor link +:+ after)
  = Some (link, String.length (docAnchor link)).
Proof.
  intros Hne Hno. unfold JS.match_doc_link, docAnchor.
  rewrite !append_assoc. rewrite <- (append_assoc "href=" (String JS.dquote "/docs/")).
  rewrite strip_prefix_append.
  change (String JS.dquote "" +:+ after) with (String JS.dquote after).
  rewrite (span_not_append JS.dquote link after Hno).
  destruct link as [|c link]; [congruence |]. f_equal. f_equal.
  rewrite !length_append. cbn [String.length]. lia.
Qed.

(** Every capture of a scan was matched at some place of the string. *)
Lemma exec_all_sound (match_at : string → option (string * nat)) (s : string)
    (skip : nat) (capture : string) :
  capture ∈ JS.exec_all match_at s skip →
  ∃ (before rest : string) (len : nat),
    s = before +:+ rest ∧ match_at rest = Some (capture, len).
Proof.
  revert skip; induction s as [|c s IH]; intros skip; cbn [JS.exec_all].
  - intros H. now apply elem_of_nil in H.
  - assert (Hlater : ∀ k : nat, capture ∈ JS.exec_all match_at s k →
              ∃ (before rest : string) (len : nat),
                String c s = before +:+ rest ∧ match_at rest = Some (capture, len)).
    { intros k (before & rest & len & -> & Hm)%IH.
      exists (String c before), rest, len. now rewrite append_cons. }
    destruct skip as [|k]; [|apply Hlater].
    destruct (match_at (String c s)) as [[cap len]|] eqn:Hmatch; [|apply Hlater].
    intros [-> | Hin]%elem_of_cons; [|now apply Hlater in Hin].
    exists EmptyString, (String c s), len. auto.
Qed.

(** The scan passes over the code units that it is told to skip. *)
Lemma exec_all_skip (match_at : string → option (string * nat)) (a s : string) :
  JS.exec_all match_at (a +:+ s) (String.length a) = JS.exec_all match_at s 0.
Proof.
  induction a as [|c a IH]; [reflexivity |].
  rewrite append_cons. cbn [String.length JS.exec_all]. exact IH.
Qed.

Lemma doc_links_sound_aux (html link : string) :
  link ∈ JS.exec_all JS.match_doc_link html 0 → link ≠ "".
Proof.
  intros (before & rest & len & -> & Hmatch)%exec_all_sound.
  now apply match_doc_link_Some in Hmatch as (Hne & _).
Qed.

(** X7: every path that the fetcher takes from the page is the capture of a
    match of the link expression: it is not empty, has no double quote, and
    the page has the text [href=], a double quote, [/docs/], the path and a
    double quote somewhere. *)
Theorem doc_links_sound (html link : string) :
  link ∈ JS.exec_all JS.match_doc_link html 0 →
  link ≠ "" ∧ JS.index_of JS.dquote link = None
  ∧ ∃ before after : string, html = before +:+ docAnchor link +:+ after.
Proof.
  intros (before & rest & len & -> & Hmatch)%exec_all_sound.
  apply match_doc_link_Some in Hmatch as (Hne & Hno & _ & after & ->).
  split; [exact Hne |]. split; [exact Hno |]. now exists before, after.
Qed.

Lemma doc_links_sound_witness :
  "en/setup" ≠ ""
  ∧ JS.index_of JS.dquote "en/setup" = None
  ∧ ∃ before after : string,
      "<a " +:+ docAnchor "en/setup" +:+ ">Setup</a>"
      = before +:+ docAnchor "en/setup" +:+ after.
Proof.
  apply (doc_links_sound ("<a " +:+ docAnchor "en/setup" +:+ ">Setup</a>") "en/setup").
  vm_compute. constructor.
Defined.

Lemma match_doc_link_not_h (c : ascii) (s : string) :
  not_h c = true → JS.match_doc_link (String c s) = None.
Proof.
  unfold not_h, JS.match_doc_link. intros Hc%negb_true_iff.
  change ("href=" +:+ String JS.dquote "/docs/")
    with (String "h" ("ref=" +:+ String JS.dquote "/docs/")).
  cbn [JS.strip_prefix]. rewrite Ascii.eqb_sym, Hc. reflexivity.
Qed.

Lemma exec_all_pass (sep s : string) :
  all_chars not_h sep = true →
  JS.exec_all JS.match_doc_link (sep +:+ s) 0 = JS.exec_all JS.match_doc_link s 0.
Proof.
  induction sep as [|c sep IH]; [reflexivity |]. cbn [all_chars].
  intros [Hc Hsep]%andb_true_iff. rewrite append_cons. cbn [JS.exec_all].
  rewrite (match_doc_link_not_h c _ Hc). auto.
Qed.

Lemma exec_all_anchor (link rest : string) :
  link ≠ "" → JS.index_of JS.dquote link = None →
  JS.exec_all JS.match_doc_link (docAnchor link +:+ rest) 0
  = link :: JS.exec_all JS.match_doc_link rest 0.
Proof.
  intros Hne Hno. pose proof (match_doc_link_anchor link rest Hne Hno) as Hmatch.
  set (inner := "ref=" +:+ String JS.dquote "/docs/" +:+ link +:+ String JS.dquote "").
  change (docAnchor link) with (String "h" inner) in *.
  rewrite append_cons in *. cbn [JS.exec_all]. rewrite Hmatch.
  cbn [String.length]. rewrite Nat.sub_1_r. cbn [Nat.pred].
  now rewrite exec_all_skip.
Qed.

(** X8: a page made of anchors [href=], double quote, [/docs/], path, double
    quote, with any text without the letter [h] before each and at the end,
    gives back its paths, all of them and in their order, when each path is
    not empty and has no double quote. *)
Theorem doc_links_found (items : list (string * string)) (tail : string) :
  (∀ sep link : string,
     (sep, link) ∈ items →
     all_chars not_h sep = true ∧ link ≠ "" ∧ JS.index_of JS.dquote link = None) →
  all_chars not_h tail = true →
  JS.exec_all JS.match_doc_link (anchors items +:+ tail) 0 = map snd items.
Proof.
  intros Hitems Htail. unfold anchors.
  induction items as [|[sep link] items IH]; cbn [map concat_strings fold_right fst snd].
  - rewrite append_empty_l, <- (append_empty_r tail). now rewrite exec_all_pass.
  - destruct (Hitems sep link ltac:(left)) as (Hsep & Hne & Hno).
    rewrite !append_assoc, exec_all_pass, exec_all_anchor by assumption.
    f_equal. apply IH. intros sep' link' Hin. apply Hitems. now right.
Qed.

Lemma doc_links_found_witness :
  JS.exec_all JS.match_doc_link
    (anchors [("<a ", "en/setup"); ("></a><a ", "en/hooks/")] +:+ "></a>") 0
  = ["en/setup"; "en/hooks/"].
Proof.
  apply (doc_links_found [("<a ", "en/setup"); ("></a><a ", "en/hooks/")] "></a>");
    [|reflexivity].
  intros sep link Hin.
  apply elem_of_cons in Hin as [[= -> ->] | Hin];
    [|apply list_elem_of_singleton in Hin as [= -> ->]];
    (split; [reflexivity | split; [discriminate | reflexivity]]).
Defined.

Lemma elem_of_add_all (found links : list string) (x : string) :
  x ∈ add_all found links ↔ x ∈ found ∨ x ∈ links.
Proof.
  revert links; induction found as [|y found IH]; intros links; cbn [add_all].
  - split; [auto | intros [H | H]; [now apply elem_of_nil in H | exact H]].
  - destruct (bool_decide_reflect (y ∈ links)) as [Hy | Hy]; rewrite IH.
    + rewrite elem_of_cons. split; [tauto |]. intros [[-> | H] | H]; auto.
    + rewrite elem_of_app, list_elem_of_singleton, elem_of_cons. tauto.
Qed.

Lemma NoDup_add_all (found links : list string) :
  NoDup links → NoDup (add_all found links).
Proof.
  revert links; induction found as [|y found IH]; intros links Hnd; cbn [add_all]; [exact Hnd |].
  destruct (bool_decide_reflect (y ∈ links)) as [Hy | Hy]; apply IH; [exact Hnd |].
  apply NoDup_app. split; [exact Hnd |]. split; [|apply NoDup_singleton].
  intros x Hx ->%list_elem_of_singleton. contradiction.
Qed.

Lemma pushPages_urls (now : nat → Z) (links : list string) (k : nat)
    (results : list DocPage.t) :
  map DocPage.url (pushPages now k links results)
  = map DocPage.url results ++ map (λ link, DOCS_BASE_URL +:+ "/" +:+ link) links.
Proof.
  revert k results; induction links as [|link links IH]; intros k results; cbn [pushPages map].
  - now rewrite app_nil_r.
  - destruct (toISOString_valid (now k)) as [ts Hts]. unfold Date.of_clock. rewrite Hts, IH.
    rewrite map_app. cbn [map DocPage.url]. now rewrite <- app_assoc.
Qed.

Lemma docTitle_nonempty (link : string) : link ≠ "" → docTitle link ≠ "".
Proof.
  unfold docTitle. intros Hne. destruct (JS.pop _) as [| |[|c s]]; cbn; try assumption.
  discriminate.
Qed.

(** What passes a filter at some place stood in the list at that place among
    those that pass. *)
Lemma filter_eq_app_cons {A : Type} (P : A → Prop) `{∀ x, Decision (P x)}
    (l u v : list A) (a : A) :
  filter P l = u ++ a :: v →
  ∃ l1 l2 : list A, l = l1 ++ a :: l2 ∧ filter P l1 = u ∧ filter P l2 = v ∧ P a.
Proof.
  revert u; induction l as [|y l IH]; intros u.
  - rewrite filter_nil. now destruct u.
  - rewrite filter_cons. destruct (decide (P y)) as [Hy | Hy].
    + destruct u as [|z u]; cbn [app].
      * intros [= -> Hv]. exists [], l. rewrite filter_nil. auto.
      * intros [= -> (l1 & l2 & -> & Hu & Hv & Ha)%IH]. exists (z :: l1), l2.
        rewrite filter_cons_True by assumption. subst u. auto.
    + intros (l1 & l2 & -> & Hu & Hv & Ha)%IH. exists (y :: l1), l2.
      rewrite filter_cons_False by assumption. auto.
Qed.

(** The set of the links, as a list: the distinct paths found, each at the
    place where it is first met. *)
Lemma add_all_first_occurrences (found links : list string) :
  add_all found links = links ++ filter (λ y, y ∉ links) (first_occurrences found).
Proof.
  revert links; induction found as [|x found IH]; intros links;
    cbn [add_all first_occurrences].
  - now rewrite filter_nil, app_nil_r.
  - destruct (bool_decide_reflect (x ∈ links)) as [Hx | Hx]; rewrite IH.
    + rewrite filter_cons_False by tauto. rewrite list_filter_filter. f_equal.
      apply list_filter_iff. intros y. split; [|tauto]. intros Hy. split; [exact Hy |].
      intros ->. contradiction.
    + rewrite filter_cons_True by assumption. rewrite list_filter_filter, <- app_assoc.
      cbn [app]. do 2 f_equal. apply list_filter_iff. intros y.
      rewrite elem_of_app, list_elem_of_singleton. tauto.
Qed.

Lemma add_all_from_nothing (found : list string) :
  add_all found [] = first_occurrences found.
Proof.
  rewrite add_all_first_occurrences. cbn [app].
  induction (first_occurrences found) as [|y l IH]; [reflexivity |].
  rewrite filter_cons_True by apply not_elem_of_nil. now rewrite IH.
Qed.

(** When [a] stands before [b] among the first occurrences, [a] is met in the
    list before [b] is met at all. *)
Lemma first_occurrences_order (found l1 l2 l3 : list string) (a b : string) :
  first_occurrences found = l1 ++ a :: l2 ++ b :: l3 →
  ∃ f1 f2 : list string, found = f1 ++ a :: f2 ∧ (a ∉ f1) ∧ (b ∉ f1).
Proof.
  revert l1 l2 l3; induction found as [|x found IH]; intros l1 l2 l3;
    cbn [first_occurrences]; [now destruct l1 |].
  destruct l1 as [|y l1]; cbn [app].
  - intros [= -> _]. exists [], found. split; [reflexivity |].
    split; apply not_elem_of_nil.
  - intros [= -> Hrest].
    apply filter_eq_app_cons in Hrest as (m1 & m2 & Hfound & _ & Hrest & Ha).
    apply filter_eq_app_cons in Hrest as (n1 & n2 & -> & _ & _ & Hb).
    destruct (IH m1 n1 n2 Hfound) as (f1 & f2 & -> & Ha1 & Hb1).
    exists (y :: f1), f2. split; [reflexivity |].
    rewrite !not_elem_of_cons. auto.
Qed.

(** X9: the pages that the fetcher returns for a page of the site are one
    for each distinct path found, in the order in which the paths are first
    met: their addresses are the base address, [/] and the path, for a list
    of paths without repetition that has the paths found and no other, and
    in which a path stands before another only if it is met in the page
    before the other is met at all.  No two pages have the same address, and
    each title is not empty. *)
Theorem checkDocumentationUpdates_pages (now : nat → Z) (status : Z) (html : string) :
  (∃ paths : list string,
     map DocPage.url (checkDocumentationUpdates now (Response true status (Some html)))
     = map (λ link, DOCS_BASE_URL +:+ "/" +:+ link) paths
     ∧ NoDup paths
     ∧ (∀ link : string, link ∈ paths ↔ link ∈ JS.exec_all JS.match_doc_link html 0)
     ∧ ∀ (l1 l2 l3 : list string) (a b : string),
         paths = l1 ++ a :: l2 ++ b :: l3 →
         ∃ f1 f2 : list string,
           JS.exec_all JS.match_doc_link html 0 = f1 ++ a :: f2 ∧ (a ∉ f1) ∧ (b ∉ f1))
  ∧ NoDup (map DocPage.url (checkDocumentationUpdates now (Response true status (Some html))))
  ∧ (∀ link : string,
       link ∈ JS.exec_all JS.match_doc_link html 0
       ↔ (DOCS_BASE_URL +:+ "/" +:+ link)
         ∈ map DocPage.url (checkDocumentationUpdates now (Response true status (Some html))))
  ∧ (∀ page : DocPage.t,
       page ∈ checkDocumentationUpdates now (Response true status (Some html)) →
       DocPage.title page ≠ "").
Proof.
  cbn [checkDocumentationUpdates]. rewrite pushPages_urls. cbn [map app].
  assert (Hinj : ∀ a b : string,
            DOCS_BASE_URL +:+ "/" +:+ a = DOCS_BASE_URL +:+ "/" +:+ b → a = b).
  { intros a b H. now apply append_inj_l, append_inj_l in H. }
  split; [|split; [|split]].
  - exists (add_all (JS.exec_all JS.match_doc_link html 0) []).
    split; [reflexivity |]. split; [apply NoDup_add_all, NoDup_nil_2 |]. split.
    + intros link. rewrite elem_of_add_all. split; [|auto].
      intros [H | H]; [exact H | now apply elem_of_nil in H].
    + intros l1 l2 l3 a b. rewrite add_all_from_nothing. apply first_occurrences_order.
  - apply NoDup_ListNoDup, Finite.Injective_map_NoDup; [exact Hinj |].
    apply NoDup_ListNoDup, NoDup_add_all, NoDup_nil_2.
  - intros link. rewrite (list_elem_of_In (map _ _) _), in_map_iff. split.
    + intros Hin. exists link. split; [reflexivity |].
      apply list_elem_of_In, elem_of_add_all. now left.
    + intros (l & Heq%Hinj & Hl). subst l.
      apply list_elem_of_In, elem_of_add_all in Hl as [Hl | Hl]; [exact Hl |].
      now apply elem_of_nil in Hl.
  - intros page [Hin | (link & Hlink & -> & _)]%pushPages_pages;
      [now apply elem_of_nil in Hin |].
    apply docTitle_nonempty.
    apply elem_of_add_all in Hlink as [Hlink | Hlink]; [|now apply elem_of_nil in Hlink].
    now apply doc_links_sound_aux in Hlink.
Qed.

(** ** The release notes fetcher *)

Lemma index_of_None_all_chars (c : ascii) (s : string) :
  JS.index_of c s = None ↔ all_chars (λ x, negb (Ascii.eqb x c)) s = true.
Proof.
  induction s as [|a s IH]; cbn [JS.index_of all_chars]; [tauto |].
  destruct (Ascii.eqb a c); cbn [negb andb].
  - split; discriminate.
  - rewrite <- IH. destruct (JS.index_of c s); cbn; split; (discriminate || reflexivity).
Qed.

Lemma all_chars_strip_tags (P : ascii → bool) (s : string) (skip : nat) :
  all_chars P s = true → all_chars P (JS.strip_tags s skip) = true.
Proof.
  revert skip; induction s as [|a s IH]; intros skip; [auto |].
  cbn [all_chars JS.strip_tags]. intros [Ha Hs]%andb_true_iff.
  destruct skip as [|k]; [|auto].
  destruct (Ascii.eqb a "<"); [destruct (JS.index_of ">" s); [auto |] |];
    cbn [all_chars]; rewrite Ha; cbn [andb]; auto.
Qed.

Lemma all_chars_trimStart (P : ascii → bool) (s : string) :
  all_chars P s = true → all_chars P (JS.trimStart s) = true.
Proof.
  induction s as [|a s IH]; [auto |]. cbn [JS.trimStart].
  destruct (JS.is_space a); [|auto]. cbn [all_chars]. intros [_ Hs]%andb_true_iff. auto.
Qed.

Lemma all_chars_trimEnd (P : ascii → bool) (s : string) :
  all_chars P s = true → all_chars P (JS.trimEnd s) = true.
Proof.
  induction s as [|a s IH]; [auto |]. cbn [all_chars JS.trimEnd].
  intros [Ha Hs]%andb_true_iff. specialize (IH Hs).
  destruct (JS.trimEnd s) as [|b t].
  - destruct (JS.is_space a); [reflexivity |]. cbn [all_chars]. now rewrite Ha.
  - cbn [all_chars] in *. now rewrite Ha.
Qed.

Lemma index_of_strip_tags (c : ascii) (s : string) (skip : nat) :
  JS.index_of c s = None → JS.index_of c (JS.strip_tags s skip) = None.
Proof. rewrite !index_of_None_all_chars. apply all_chars_strip_tags. Qed.

Lemma no_tag_strip_tags (s : string) (skip : nat) : no_tag (JS.strip_tags s skip) = true.
Proof.
  revert skip; induction s as [|a s IH]; intros skip; [reflexivity |].
  cbn [JS.strip_tags]. destruct skip as [|k]; [|auto].
  destruct (Ascii.eqb a "<") eqn:Ha.
  - destruct (JS.index_of ">" s) eqn:Hgt; [auto |].
    cbn [no_tag]. rewrite Ha, IH, andb_true_r.
    apply bool_decide_eq_true. now apply index_of_strip_tags.
  - cbn [no_tag]. now rewrite Ha, IH.
Qed.

Lemma strip_tags_no_tag (s : string) : no_tag s = true → JS.strip_tags s 0 = s.
Proof.
  induction s as [|a s IH]; [reflexivity |]. cbn [no_tag JS.strip_tags].
  intros [Ha Hs]%andb_true_iff. rewrite (IH Hs).
  destruct (Ascii.eqb a "<"); [|reflexivity].
  apply bool_decide_eq_true in Ha. now rewrite Ha.
Qed.

Lemma no_tag_spec (s : string) :
  no_tag s = true → ∀ a b : string, s = a +:+ String "<" b → JS.index_of ">" b = None.
Proof.
  intros Hs a; revert s Hs; induction a as [|x a IH]; intros s Hs b ->.
  - rewrite append_empty_l in Hs. cbn [no_tag] in Hs.
    apply andb_true_iff in Hs as [Hb _]. now apply bool_decide_eq_true in Hb.
  - rewrite append_cons in Hs. cbn [no_tag] in Hs.
    apply andb_true_iff in Hs as [_ Hs]. exact (IH _ Hs b eq_refl).
Qed.

(** X10: what is left of a text when its tags are taken out has no tag: no
    [<] of it has a [>] after it.  Taking the tags out once more changes
    nothing, and a text without [<] is left as it is. *)
Theorem strip_tags_leaves_no_tag (s : string) :
  (∀ a b : string, JS.strip_tags s 0 = a +:+ String "<" b → JS.index_of ">" b = None)
  ∧ JS.strip_tags (JS.strip_tags s 0) 0 = JS.strip_tags s 0
  ∧ (JS.index_of "<" s = None → JS.strip_tags s 0 = s).
Proof.
  split; [apply no_tag_spec, no_tag_strip_tags |].
  split; [apply strip_tags_no_tag, no_tag_strip_tags |].
  intros Hlt. apply strip_tags_no_tag. clear -Hlt.
  induction s as [|a s IH]; [reflexivity |]. cbn [JS.index_of no_tag] in *.
  destruct (Ascii.eqb a "<"); [discriminate |].
  destruct (JS.index_of "<" s); [discriminate |]. now apply IH.
Qed.

Lemma strip_tags_leaves_no_tag_witness :
  JS.strip_tags "New <b>models</b> & tools" 0 = "New models & tools"
  ∧ JS.strip_tags "Quarter 3" 0 = "Quarter 3".
Proof.
  split; [reflexivity |].
  apply (proj2 (proj2 (strip_tags_leaves_no_tag "Quarter 3"))). reflexivity.
Defined.

Lemma trimEnd_idempotent (s : string) : JS.trimEnd (JS.trimEnd s) = JS.trimEnd s.
Proof.
  induction s as [|a s IH]; [reflexivity |]. cbn [JS.trimEnd].
  destruct (JS.trimEnd s) as [|b t] eqn:Hend.
  - destruct (JS.is_space a) eqn:Ha; [reflexivity |]. cbn [JS.trimEnd]. now rewrite Ha.
  - change (JS.trimEnd (String a (String b t)))
      with (match JS.trimEnd (String b t) with
            | EmptyString => if JS.is_space a then EmptyString else String a EmptyString
            | String b' t' => String a (String b' t')
            end).
    now rewrite IH.
Qed.

Lemma trimStart_head (s : string) :
  match JS.trimStart s with
  | EmptyString => True
  | String c _ => JS.is_space c = false
  end.
Proof.
  induction s as [|a s IH]; [exact I |]. cbn [JS.trimStart].
  destruct (JS.is_space a) eqn:Ha; [exact IH | exact Ha].
Qed.

Lemma trimStart_trimEnd (s : string) :
  match s with
  | EmptyString => True
  | String c _ => JS.is_space c = false
  end →
  JS.trimStart (JS.trimEnd s) = JS.trimEnd s.
Proof.
  destruct s as [|c s]; [reflexivity |]. intros Hc. cbn [JS.trimEnd].
  destruct (JS.trimEnd s); [rewrite Hc |]; cbn [JS.trimStart]; now rewrite Hc.
Qed.

Lemma trim_idempotent (s : string) : JS.trim (JS.trim s) = JS.trim s.
Proof.
  unfold JS.trim. rewrite (trimStart_trimEnd (JS.trimStart s) (trimStart_head s)).
  apply trimEnd_idempotent.
Qed.

Lemma no_tag_trimStart (s : string) :
  no_tag s = true → no_tag (JS.trimStart s) = true.
Proof.
  induction s as [|a s IH]; [auto |]. cbn [JS.trimStart].
  destruct (JS.is_space a); [|auto]. cbn [no_tag]. intros [_ Hs]%andb_true_iff. auto.
Qed.

Lemma no_tag_trimEnd (s : string) : no_tag s = true → no_tag (JS.trimEnd s) = true.
Proof.
  induction s as [|a s IH]; [auto |]. cbn [no_tag JS.trimEnd].
  intros [Ha Hs]%andb_true_iff. specialize (IH Hs).
  destruct (JS.trimEnd s) as [|b t] eqn:Hend.
  - destruct (JS.is_space a); [reflexivity |]. cbn [no_tag].
    destruct (Ascii.eqb a "<"); reflexivity.
  - cbn [no_tag] in *. rewrite IH, andb_true_r.
    destruct (Ascii.eqb a "<"); [|reflexivity].
    apply bool_decide_eq_true in Ha. apply bool_decide_eq_true.
    rewrite <- Hend. rewrite index_of_None_all_chars in *. now apply all_chars_trimEnd.
Qed.

Lemma match_heading_text_in_line (s capture : string) (len : nat) :
  JS.match_heading_text s = Some (capture, len) → all_chars in_line capture = true.
Proof.
  revert capture len; induction s as [|a s IH]; intros capture len.
  - cbn. now intros [= <- _].
  - cbn [JS.match_heading_text].
    destruct (JS.match_close_heading (String a s)); [now intros [= <- _] |].
    destruct (JS.is_line_terminator a) eqn:Ha; [discriminate |].
    destruct (JS.match_heading_text s) as [[cap n]|]; [|discriminate].
    intros [= <- _]. cbn [all_chars]. unfold in_line at 1. rewrite Ha. cbn [negb andb].
    now apply (IH cap n).
Qed.

Lemma match_heading_in_line (s capture : string) (len : nat) :
  JS.match_heading s = Some (capture, len) → all_chars in_line capture = true.
Proof.
  unfold JS.match_heading. destruct s as [|a [|b [|c rest]]]; try discriminate.
  destruct (_ && _ && _); [|discriminate].
  destruct (JS.span_not ">" rest) as [attrs [|d inner]]; [discriminate |].
  destruct (JS.match_heading_text inner) as [[cap n]|] eqn:Htext; [|discriminate].
  intros [= <- _]. now apply match_heading_text_in_line in Htext.
Qed.

(** X11: every entry that the release notes fetcher returns is not empty,
    has no white space at its start or its end, has no line break in it, and
    has no tag left: no [<] of it has a [>] after it. *)
Theorem checkReleaseNotes_entries (response : FetchOutcome string) (note : string) :
  note ∈ checkReleaseNotes response →
  note ≠ "" ∧ JS.trim note = note ∧ all_chars in_line note = true
  ∧ ∀ a b : string, note = a +:+ String "<" b → JS.index_of ">" b = None.
Proof.
  destruct response as [|[] status [html|]]; cbn [checkReleaseNotes];
    try (intros H; now apply elem_of_nil in H).
  intros [Hne Hin]%list_elem_of_filter. apply bool_decide_unpack in Hne.
  apply list_elem_of_In, in_map_iff in Hin as (capture & <- & Hcap%list_elem_of_In).
  split; [exact Hne |]. unfold headingText in *. split; [apply trim_idempotent |].
  apply exec_all_sound in Hcap as (before & rest & len & _ & Hmatch).
  apply match_heading_in_line in Hmatch. split.
  - unfold JS.trim. now apply all_chars_trimEnd, all_chars_trimStart, all_chars_strip_tags.
  - apply no_tag_spec. unfold JS.trim.
    apply no_tag_trimEnd, no_tag_trimStart, no_tag_strip_tags.
Qed.

Lemma checkReleaseNotes_entries_witness :
  "New models" ≠ "" ∧ JS.trim "New models" = "New models"
  ∧ all_chars in_line "New models" = true
  ∧ ∀ a b : string, "New models" = a +:+ String "<" b → JS.index_of ">" b = None.
Proof.
  apply (checkReleaseNotes_entries
           (Response true 200 (Some "<h2 id='a'> <b>New</b> models </h2><h3> </h3>"))).
  vm_compute. constructor.
Defined.

(** ** The summary *)

Lemma push_part_length (n : nat) (word : string) (parts : list string) :
  length (push_part n word parts) = (length parts + if (0 <? n)%nat then 1 else 0)%nat.
Proof.
  unfold push_part. destruct (0 <? n)%nat; [|lia]. rewrite length_app. reflexivity.
Qed.

(** X12: the summary is the sentence [No updates detected in the last 24
    hours.] exactly when the five collections are all empty; otherwise it is
    [Daily updates: ], a list and a full stop. *)
Theorem buildSummary_no_updates_iff (commits releases prs docs releaseNotes : nat) :
  (buildSummary commits releases prs docs releaseNotes
   = "No updates detected in the last 24 hours."
   ↔ commits = 0 ∧ releases = 0 ∧ prs = 0 ∧ docs = 0 ∧ releaseNotes = 0)
  ∧ (¬ (commits = 0 ∧ releases = 0 ∧ prs = 0 ∧ docs = 0 ∧ releaseNotes = 0) →
     ∃ list : string,
       buildSummary commits releases prs docs releaseNotes
       = "Daily updates: " +:+ list +:+ ".").
Proof.
  unfold buildSummary.
  set (parts := push_part releaseNotes _ _).
  assert (Hlen : length parts
                 = ((if (0 <? commits)%nat then 1 else 0)
                    + (if (0 <? releases)%nat then 1 else 0)
                    + (if (0 <? prs)%nat then 1 else 0)
                    + (if (0 <? docs)%nat then 1 else 0)
                    + (if (0 <? releaseNotes)%nat then 1 else 0))%nat).
  { subst parts. rewrite !push_part_length. reflexivity. }
  assert (Hzero : length parts = 0
                  ↔ commits = 0 ∧ releases = 0 ∧ prs = 0 ∧ docs = 0 ∧ releaseNotes = 0).
  { rewrite Hlen.
    destruct (Nat.ltb_spec 0 commits), (Nat.ltb_spec 0 releases), (Nat.ltb_spec 0 prs),
      (Nat.ltb_spec 0 docs), (Nat.ltb_spec 0 releaseNotes); lia. }
  destruct (Nat.eqb_spec (length parts) 0) as [Hl | Hl].
  - split; [split; [intros _; now apply Hzero | reflexivity] |].
    intros Hnot. exfalso. now apply Hnot, Hzero.
  - split; [|intros _; eauto].
    split; [|intros H; now apply Hzero in H].
    change ("Daily updates: " +:+ JS.join ", " parts +:+ ".")
      with (String "D" ("aily updates: " +:+ JS.join ", " parts +:+ ".")).
    discriminate.
Qed.

Lemma buildSummary_no_updates_iff_witness :
  ∃ list : string, buildSummary 0 0 3 0 1 = "Daily updates: " +:+ list +:+ ".".
Proof.
  apply (proj2 (buildSummary_no_updates_iff 0 0 3 0 1)).
  intros (_ & _ & H & _). discriminate H.
Defined.

(** ** The release notes section of the report *)

(** X13: the release notes section that the renderer adds to the text [md].
    Without notes there is no section.  With 1 to 10 notes it is the heading,
    a line for each note in order, and an empty line.  With more than 10
    notes it is the heading, a line for each of the first 10 notes in order,
    the note [... and N more entries] where [N] is the number of notes less
    10, and an empty line. *)
Theorem releaseNotesSection_lists_first_10 (notes : list string) (md : string) :
  (notes = [] → releaseNotesSection notes md = md)
  ∧ (0 < length notes ≤ 10 →
     releaseNotesSection notes md
     = md +:+ notesHeading +:+ concat_strings (map noteLine notes) +:+ JS.nl)
  ∧ (10 < length notes →
     releaseNotesSection notes md
     = md +:+ notesHeading +:+ concat_strings (map noteLine (firstn 10 notes))
          +:+ JS.nl +:+ "*... and " +:+ JS.length_toString (length notes - 10)
          +:+ " more entries*" +:+ JS.nl +:+ JS.nl).
Proof.
  split; [intros ->; reflexivity |]. split.
  - intros [Hpos Hle]. unfold releaseNotesSection, JS.slice0, notesHeading.
    destruct (Nat.ltb_spec 0 (length notes)); [|lia].
    destruct (Nat.ltb_spec 10 (length notes)); [lia |].
    rewrite firstn_all2 by lia. rewrite fold_noteItem, !append_assoc. reflexivity.
  - intros Hlen. unfold releaseNotesSection, JS.slice0, notesHeading.
    destruct (Nat.ltb_spec 0 (length notes)); [|lia].
    destruct (Nat.ltb_spec 10 (length notes)); [|lia].
    rewrite fold_noteItem, !append_assoc. reflexivity.
Qed.

Lemma releaseNotesSection_lists_first_10_witness :
  releaseNotesSection (map JS.length_toString (seq 1 12)) ""
  = notesHeading
    +:+ concat_strings (map noteLine (firstn 10 (map JS.length_toString (seq 1 12))))
    +:+ JS.nl +:+ "*... and 2 more entries*" +:+ JS.nl +:+ JS.nl.
Proof.
  refine (proj2 (proj2 (releaseNotesSection_lists_first_10
                          (map JS.length_toString (seq 1 12)) "")) _).
  vm_compute. lia.
Defined.

(** ** The date of the report and its path *)

Lemma first_split_append (sep : ascii) (a b : string) :
  JS.index_of sep a = None → JS.first (JS.split sep (a +:+ String sep b)) = a.
Proof.
  induction a as [|c a IH]; intros Hno.
  - rewrite append_empty_l. cbn [JS.split]. now rewrite Ascii.eqb_refl.
  - rewrite append_cons. cbn [JS.split JS.index_of] in *.
    destruct (Ascii.eqb c sep); [discriminate |].
    destruct (JS.index_of sep a); [discriminate |]. specialize (IH eq_refl).
    destruct (JS.split sep (a +:+ String sep b)) as [|h t] eqn:Hsplit;
      [now apply split_nonempty in Hsplit |].
    cbn [JS.first] in *. now subst h.
Qed.

Lemma index_of_append_None (c : ascii) (a b : string) :
  JS.index_of c a = None → JS.index_of c b = None → JS.index_of c (a +:+ b) = None.
Proof.
  rewrite !index_of_None_all_chars. intros Ha Hb.
  induction a as [|x a IH]; [exact Hb |]. rewrite append_cons. cbn [all_chars] in *.
  apply andb_true_iff in Ha as [-> Ha]. cbn [andb]. auto.
Qed.

Lemma numeral_without (c : ascii) (s : string) (acc v : Z) :
  digit_value c = None → numeral_value_from acc s = Some v → JS.index_of c s = None.
Proof.
  intros Hc. revert acc; induction s as [|a s IH]; intros acc; [reflexivity |].
  cbn [numeral_value_from JS.index_of].
  destruct (Ascii.eqb_spec a c) as [-> | _]; [now rewrite Hc |].
  destruct (digit_value a) as [n|]; [|discriminate]. cbn. intros H%IH. now rewrite H.
Qed.

Lemma numeral_value_without (c : ascii) (s : string) (v : Z) :
  digit_value c = None → numeral_value s = Some v → JS.index_of c s = None.
Proof.
  intros Hc. destruct s as [|a s]; [reflexivity |]. unfold numeral_value.
  now apply numeral_without.
Qed.

(** X15: on a host whose local time is UTC at the instant of the run, and in
    a year from 1000 to 9999, the date in the title of the report and the
    path that the writer derives show the same day: the date is [Y-M-D] and
    the path [daily/Y/M/D.md], with [Y] of four code units and [M] and [D] of
    two. *)
Theorem report_date_and_path_agree (LocalTZA : Z → Z) (tv : Z) :
  LocalTZA tv = 0%Z →
  (1000 ≤ Date.YearFromTime tv ≤ 9999)%Z →
  ∃ Y M D : string,
    formatDate (Some tv) = Normal (Y +:+ "-" +:+ M +:+ "-" +:+ D)
    ∧ reportPath LocalTZA (Some tv)
      = "daily/" +:+ Y +:+ "/" +:+ M +:+ "/" +:+ D +:+ ".md"
    ∧ String.length Y = 4 ∧ String.length M = 2 ∧ String.length D = 2.
Proof.
  intros Htz Hyear.
  pose proof (civil_from_days_range (Date.Day tv)) as [Hm Hd].
  pose proof (four_digits_year _ Hyear) as [HY1 HY2%bool_decide_eq_true]%andb_true_iff.
  pose proof (two_digits_upto_31 (Date.MonthFromTime tv + 1)
                ltac:(unfold Date.MonthFromTime; lia))
    as [HM1 HM2%bool_decide_eq_true]%andb_true_iff.
  pose proof (two_digits_upto_31 (Date.DateFromTime tv) ltac:(unfold Date.DateFromTime; lia))
    as [HD1 HD2%bool_decide_eq_true]%andb_true_iff.
  apply Nat.eqb_eq in HY1, HM1, HD1.
  set (Y := JS.Number_toString (Some (Date.YearFromTime tv))) in *.
  set (M := JS.padStart (JS.Number_toString (Some (Date.MonthFromTime tv + 1)%Z)) 2 "0") in *.
  set (D := JS.padStart (JS.Number_toString (Some (Date.DateFromTime tv))) 2 "0") in *.
  exists Y, M, D. split; [|split; [|auto]].
  - unfold formatDate, Date.toISOString.
    destruct (Z.leb_spec 0 (Date.YearFromTime tv)); [|lia].
    destruct (Z.leb_spec (Date.YearFromTime tv) 9999); [|lia].
    cbn [andb]. rewrite bind_Normal, mret_Normal. f_equal.
    set (rest := Date.digits 2 (Date.TimeWithinDay tv `div` 3600000) +:+ _).
    change (Date.digits 2 (Date.MonthFromTime tv + 1)) with M.
    change (Date.digits 2 (Date.DateFromTime tv)) with D.
    replace (Date.digits 4 (Date.YearFromTime tv)) with Y.
    2:{ unfold Date.digits, JS.padStart.
        change (JS.Number_toString (Some (Date.YearFromTime tv))) with Y.
        now rewrite HY1. }
    change ("T" +:+ rest) with (String "T" rest).
    replace (Y +:+ "-" +:+ M +:+ "-" +:+ D +:+ String "T" rest)
      with ((Y +:+ "-" +:+ M +:+ "-" +:+ D) +:+ String "T" rest)
      by now rewrite !append_assoc.
    apply first_split_append.
    repeat apply index_of_append_None;
      try reflexivity; eapply numeral_value_without; try eassumption; reflexivity.
  - rewrite reportPath_parts. unfold getDateParts, Date.getFullYear, Date.getMonth,
      Date.getDate, Date.LocalTime, compose. cbn [fmap option_fmap option_map year month day].
    rewrite Htz, Z.add_0_r.
    replace (1 + Date.MonthFromTime tv)%Z with (Date.MonthFromTime tv + 1)%Z by lia.
    reflexivity.
Qed.

Lemma report_date_and_path_agree_witness :
  ∃ Y M D : string,
    formatDate (Some Sample.noon) = Normal (Y +:+ "-" +:+ M +:+ "-" +:+ D)
    ∧ reportPath Host.LocalTZA (Some Sample.noon)
      = "daily/" +:+ Y +:+ "/" +:+ M +:+ "/" +:+ D +:+ ".md"
    ∧ String.length Y = 4 ∧ String.length M = 2 ∧ String.length D = 2.
Proof.
  apply (report_date_and_path_agree Host.LocalTZA Sample.noon);
    [reflexivity | vm_compute; split; discriminate].
Defined.

(** Away from UTC the two can differ: eight hours west, at 03:00 UTC, the
    report is dated the 7th and its path is of the 6th. *)
Lemma report_date_and_path_differ :
  formatDate (Some 1741316400000%Z) = Normal "2025-03-07"
  ∧ reportPath (λ _, (-28800000)%Z) (Some 1741316400000%Z) = "daily/2025/03/06.md".
Proof. split; vm_compute; reflexivity. Qed.

(** ** The pull-request fetcher keeps the entries as they are *)

Lemma map_toPR (prs : list GitHubPR.t) : map toPR prs = prs.
Proof. induction prs as [|pr prs IH]; cbn [map]; [reflexivity |]. now rewrite toPR_id, IH. Qed.

(** X16: the pull requests that the fetcher returns are entries of the
    response, unchanged and in the order of the response: the output is the
    response with some entries left out, whatever the clock and the engine. *)
Theorem fetchRecentPRs_sublist (Date_parse : string → option Z) (now status : Z)
    (prs : list GitHubPR.t) :
  fetchRecentPRs Date_parse now (Response true status (Some prs)) `sublist_of` prs
  ∧ length (fetchRecentPRs Date_parse now (Response true status (Some prs))) ≤ length prs.
Proof.
  cbn [fetchRecentPRs]. rewrite map_toPR.
  split; [apply sublist_filter | apply sublist_length, sublist_filter].
Qed.

(** ** The release that the fetcher returns *)

(** X17: the name of a returned release is the raw name when that is a
    string that is not empty, and the tag in every other case ([null], no
    name, the empty string); the tag, the link and the publish timestamp are
    those of the raw entry.  The body is never empty: it has from 3 to 203
    code units. *)
Theorem toRelease_fields (r : RawRelease.t) :
  (∀ s : string,
     RawRelease.name r = JS.JSStr s → s ≠ "" → GitHubRelease.name (toRelease r) = s)
  ∧ ((∀ s : string, RawRelease.name r = JS.JSStr s → s = "") →
     GitHubRelease.name (toRelease r) = RawRelease.tag_name r)
  ∧ GitHubRelease.tag_name (toRelease r) = RawRelease.tag_name r
  ∧ GitHubRelease.html_url (toRelease r) = RawRelease.html_url r
  ∧ GitHubRelease.published_at (toRelease r) = RawRelease.published_at r
  ∧ 3 ≤ String.length (GitHubRelease.body (toRelease r)) ≤ 203.
Proof.
  split; [|split; [|split; [|split; [|split]]]]; try reflexivity.
  - intros s Hs Hne. unfold toRelease. cbn [GitHubRelease.name]. rewrite Hs.
    now apply or_nonempty.
  - intros Hname. unfold toRelease. cbn [GitHubRelease.name].
    destruct (RawRelease.name r) as [| |s]; try reflexivity.
    now rewrite (Hname s eq_refl).
  - rewrite toRelease_body.
    destruct (RawRelease.body r) as [| |s]; [vm_compute; lia | vm_compute; lia |].
    rewrite length_append, length_take. cbn [String.length]. lia.
Qed.

Lemma toRelease_fields_witness :
  GitHubRelease.name (toRelease Sample.release_new) = "v1.0.1"
  ∧ GitHubRelease.name (toRelease Sample.release_newer) = "Patch".
Proof.
  split.
  - apply (proj1 (proj2 (toRelease_fields Sample.release_new))). intros s [=].
  - apply (proj1 (toRelease_fields Sample.release_newer) "Patch"); [reflexivity | discriminate].
Defined.

(** ** The headings that the release notes fetcher finds *)

Lemma match_close_heading_true (s : string) :
  JS.match_close_heading s = true →
  ∃ (e f : ascii) (after : string),
    s = String "<" (String "/" (String e (String f (String ">" after))))
    ∧ JS.is_h e = true ∧ JS.is_2_or_3 f = true.
Proof.
  destruct s as [|a [|b [|e [|f [|g after]]]]]; try discriminate. cbn [JS.match_close_heading].
  intros [[[[Ha%Ascii.eqb_eq Hb%Ascii.eqb_eq]%andb_true_iff He]%andb_true_iff
            Hf]%andb_true_iff Hg%Ascii.eqb_eq]%andb_true_iff.
  subst a b g. now exists e, f, after.
Qed.

Lemma match_heading_text_Some (s capture : string) (len : nat) :
  JS.match_heading_text s = Some (capture, len) →
  ∃ (e f : ascii) (after : string),
    s = capture +:+ String "<" (String "/" (String e (String f (String ">" after))))
    ∧ JS.is_h e = true ∧ JS.is_2_or_3 f = true.
Proof.
  revert capture len; induction s as [|a s IH]; intros capture len.
  - cbn. discriminate.
  - cbn [JS.match_heading_text].
    destruct (JS.match_close_heading (String a s)) eqn:Hclose.
    + intros [= <- _].
      apply match_close_heading_true in Hclose as (e & f & after & Heq & He & Hf).
      now exists e, f, after.
    + destruct (JS.is_line_terminator a); [discriminate |].
      destruct (JS.match_heading_text s) as [[cap n]|]; [|discriminate].
      intros [= <- _]. destruct (IH cap n eq_refl) as (e & f & after & -> & He & Hf).
      exists e, f, after. now rewrite append_cons.
Qed.

(** X20: every heading text that the fetcher captures stands in the page
    between an opening tag [<h2] or [<h3] (in either case of the letter, with
    any attributes up to the first [>]) and a closing tag [</h2>] or [</h3>],
    and has no line break in it.  The level of the closing tag need not be
    that of the opening tag. *)
Theorem heading_captures_sound (html capture : string) :
  capture ∈ JS.exec_all JS.match_heading html 0 →
  ∃ (before after attrs : string) (o l e f : ascii),
    html = before +:+ headingElement o l attrs capture e f +:+ after
    ∧ JS.is_h o = true ∧ JS.is_2_or_3 l = true ∧ JS.index_of ">" attrs = None
    ∧ JS.is_h e = true ∧ JS.is_2_or_3 f = true
    ∧ all_chars in_line capture = true.
Proof.
  intros (before & rest & len & -> & Hmatch)%exec_all_sound.
  pose proof (match_heading_in_line _ _ _ Hmatch) as Hline.
  unfold JS.match_heading in Hmatch.
  destruct rest as [|a [|o [|l rest]]]; try discriminate.
  destruct (Ascii.eqb a "<" && JS.is_h o && JS.is_2_or_3 l) eqn:Hopen; [|discriminate].
  apply andb_true_iff in Hopen as [[Ha%Ascii.eqb_eq Ho]%andb_true_iff Hl]. subst a.
  destruct (JS.span_not ">" rest) as [attrs q] eqn:Hspan.
  destruct (span_not_spec _ _ _ _ Hspan) as (-> & Hattrs & Hq).
  destruct q as [|g inner]; [discriminate |].
  destruct Hq as [[=] | [r [= -> ->]]].
  destruct (JS.match_heading_text r) as [[cap n]|] eqn:Htext; [|discriminate].
  injection Hmatch as <- _.
  apply match_heading_text_Some in Htext as (e & f & after & -> & He & Hf).
  exists before, after, attrs, o, l, e, f. unfold headingElement.
  split; [|auto 10]. f_equal. cbn [String.append]. rewrite !append_cons. do 3 f_equal.
  rewrite !append_assoc. do 2 f_equal. rewrite !append_cons, !append_assoc.
  reflexivity.
Qed.

Lemma heading_captures_sound_witness :
  ∃ (before after attrs : string) (o l e f : ascii),
    "<p>x</p><H2 id='q3'>Quarter 3</h3>" = before +:+ headingElement o l attrs "Quarter 3" e f +:+ after
    ∧ JS.is_h o = true ∧ JS.is_2_or_3 l = true ∧ JS.index_of ">" attrs = None
    ∧ JS.is_h e = true ∧ JS.is_2_or_3 f = true
    ∧ all_chars in_line "Quarter 3" = true.
Proof.
  apply (heading_captures_sound "<p>x</p><H2 id='q3'>Quarter 3</h3>" "Quarter 3").
  vm_compute. constructor.
Defined.

(** ** Further properties on the sample inputs *)

Lemma fetched_entries_render_witness :
  ∃ (s : string) (t : Z),
    GitHubRelease.published_at (toRelease Sample.release_new) = JS.JSStr s
    ∧ s ≠ "" ∧ Host.Date_parse s = Some t.
Proof.
  apply (proj1 (fetched_entries_render Host.Date_parse Sample.noon
                  (Response true 200 (Some Sample.releases)) NetworkError "")).
  vm_compute. constructor.
Defined.

Lemma checkDocumentationUpdates_pages_witness :
  (DOCS_BASE_URL +:+ "/" +:+ "en/setup")
    ∈ map DocPage.url
        (checkDocumentationUpdates (now_docs Sample.env_down)
           (Response true 200
              (Some (docAnchor "en/setup" +:+ docAnchor "en/setup" +:+ docAnchor "en/hooks"))))
  ∧ length (checkDocumentationUpdates (now_docs Sample.env_down)
              (Response true 200
                 (Some (docAnchor "en/setup" +:+ docAnchor "en/setup" +:+ docAnchor "en/hooks"))))
    = 2.
Proof.
  split; [|vm_compute; reflexivity].
  apply (proj1 (proj2 (proj2 (checkDocumentationUpdates_pages (now_docs Sample.env_down) 200
                                (docAnchor "en/setup" +:+ docAnchor "en/setup"
                                 +:+ docAnchor "en/hooks"))))).
  vm_compute. constructor.
Defined.
